(** * vcbblueprint: the Visual Circuit Board blueprint reader

    A shallow embedding of [src/vcbblueprint.py] and the properties of its
    decoder.  Python integers read by [struct.unpack(">I", _)] are unsigned and
    are kept in [N]; a [read] size, which may be negative, is in [Z]; lengths
    and cursor positions are in [nat].  [bytes] objects are lists of
    [Byte.byte]; a [str] is a [string], each character standing for the code
    point of its number (0 to 255, those from 128 on being the ones outside
    ASCII); the [dict] of layers is a [gmap].  Exceptions are values of [exn],
    one constructor for each place an exception can come from. *)

From Stdlib Require Import ZArith NArith List String Ascii Lia Bool.
From Stdlib.Strings Require Import Byte.
From stdpp Require Import base option list gmap strings.

Local Open Scope nat_scope.

(** ** Values *)

Abbreviation bytes := (list byte).

#[global] Instance byte_eq_decision : EqDecision byte := Byte.byte_eq_dec.

(** An unsigned char: the low eight bits of a number. *)
Definition u8 (n : N) : byte := byte_of_ascii (ascii_of_N n).

Definition bytes_of (l : list N) : bytes := u8 <$> l.
Definition ints_of (b : bytes) : list N := Byte.to_N <$> b.

(** ** Exceptions *)

(** The two messages of [binascii.Error] that [a2b_base64] raises outside of
    its strict mode; the first carries the count of data characters. *)
Inductive binascii_failure :=
| Invalid_length (data_characters : nat)
| Incorrect_padding.

Inductive exn :=
| ValueError_too_short
    (* read_blueprint: "Blueprint string is too short." *)
| ValueError_identifier (got : string)
    (* read_blueprint: "Invalid blueprint identifier. ..." *)
| ValueError_not_ascii
    (* base64: "string argument should contain only ASCII characters" *)
| binascii_Error (f : binascii_failure)
    (* binascii.a2b_base64 *)
| struct_error
    (* struct.unpack: "unpack requires a buffer of 4 bytes" *)
| zstd_Error (msg : string)
    (* zstd.decompress *)
| ValueError_decompressed_size (expected : N) (got : nat)
    (* _read_block: "Decompressed data size does not match ..."; the message
       prints buffer_size and len(compressed_data) *)
| ValueError_reshape (size : nat) (shape : N * N * N).
    (* numpy: "cannot reshape array of size ... into shape ..." *)

Inductive result (A : Type) :=
| Ok (a : A)
| Raise (e : exn).
Arguments Ok {A} a.
Arguments Raise {A} e.

(** The error taxonomy of the specification (section 7), and the kind each
    exception of the code falls under: failures of the envelope, short reads of
    a fixed-size field, failures of the decompressor, and disagreements between
    a byte count and a declared or derived size. *)
Inductive ErrorKind :=
| FormatError
| TruncatedInputError
| DecompressionError
| SizeMismatchError.

Definition kind_of (e : exn) : ErrorKind :=
  match e with
  | ValueError_too_short => FormatError
  | ValueError_identifier _ => FormatError
  | ValueError_not_ascii => FormatError
  | binascii_Error _ => FormatError
  | struct_error => TruncatedInputError
  | zstd_Error _ => DecompressionError
  | ValueError_decompressed_size _ _ => SizeMismatchError
  | ValueError_reshape _ _ => SizeMismatchError
  end.

Definition fails_with {A} (r : result A) (k : ErrorKind) : Prop :=
  exists e, r = Raise e /\ kind_of e = k.

(** ** io.BytesIO *)

Record BytesIO := mkBytesIO { getvalue : bytes; tell : nat }.

Definition BytesIO_new (initial_bytes : bytes) : BytesIO :=
  mkBytesIO initial_bytes 0.

Definition remaining (buf : BytesIO) : nat :=
  length (getvalue buf) - tell buf.

(** [buf.read(size)]: a negative size, or one beyond the end, is adjusted to
    the number of bytes left; the cursor moves by what was read. *)
Definition BytesIO_read (size : Z) (buf : BytesIO) : bytes * BytesIO :=
  let n := remaining buf in
  let size := if ((size <? 0) || (Z.of_nat n <? size))%Z then n else Z.to_nat size in
  (take size (drop (tell buf) (getvalue buf)),
   mkBytesIO (getvalue buf) (tell buf + size)).

(** Code that reads from a buffer: it returns a value and the buffer with its
    cursor moved, or raises. *)
Definition M (A : Type) : Type := BytesIO -> result (A * BytesIO).

Definition ret {A} (a : A) : M A := fun buf => Ok (a, buf).

Definition bind {A B} (m : M A) (k : A -> M B) : M B :=
  fun buf =>
    match m buf with
    | Ok (a, buf') => k a buf'
    | Raise e => Raise e
    end.

Definition raise {A} (e : exn) : M A := fun _ => Raise e.

Definition lift {A} (r : result A) : M A :=
  fun buf => match r with Ok a => Ok (a, buf) | Raise e => Raise e end.

Definition read (size : Z) : M bytes := fun buf => Ok (BytesIO_read size buf).

Notation "'let*' x ':=' m 'in' k" := (bind m (fun x => k))
  (at level 10, x pattern, m at level 100, k at level 200).

(** ** struct *)

(** [struct.unpack(">I", b)[0]]: four bytes, most significant first. *)
Definition struct_unpack_I (b : bytes) : result N :=
  match b with
  | [b0; b1; b2; b3] =>
      Ok (((Byte.to_N b0 * 256 + Byte.to_N b1) * 256 + Byte.to_N b2) * 256
          + Byte.to_N b3)%N
  | _ => Raise struct_error
  end.

(** [struct.pack(">I", n)], for building inputs. *)
Definition struct_pack_I (n : N) : bytes :=
  bytes_of [n / 16777216 mod 256; n / 65536 mod 256; n / 256 mod 256; n mod 256]%N.

(** The unsigned integer stored at offset [pos] of [data] (0 when fewer than
    four bytes are there). *)
Definition u32_at (data : bytes) (pos : nat) : N :=
  match struct_unpack_I (take 4 (drop pos data)) with
  | Ok n => n
  | Raise _ => 0%N
  end.

(** The buffer with its cursor [n] bytes further. *)
Definition advance (n : nat) (buf : BytesIO) : BytesIO :=
  mkBytesIO (getvalue buf) (tell buf + n).

(** ** The readers of the source *)

Definition _readint : M N :=
  let* b := read 4 in
  lift (struct_unpack_I b).

Definition _read_header : M (list N * bytes * N * N) :=
  let* version := read 3 in
  let* checksum := read 6 in
  let* width := _readint in
  let* height := _readint in
  ret (ints_of version, checksum, width, height).

(** ** base64 *)

(** [table_a2b_base64]: the value of a character of the standard alphabet,
    [None] for every other character. *)
Definition table_a2b_base64 (c : N) : option N :=
  (if (65 <=? c) && (c <=? 90) then Some (c - 65)          (* A-Z *)
   else if (97 <=? c) && (c <=? 122) then Some (c - 71)    (* a-z *)
   else if (48 <=? c) && (c <=? 57) then Some (c + 4)      (* 0-9 *)
   else if c =? 43 then Some 62                            (* + *)
   else if c =? 47 then Some 63                            (* / *)
   else None)%N.

Definition BASE64_PAD : N := 61.

(** The loop of [binascii.a2b_base64] outside of strict mode (as in CPython
    3.11).  A pad character ends the input once the quad it closes is
    complete and is skipped otherwise; a character outside the alphabet is
    skipped; a data character is shifted in, and yields a byte from the second
    character of each quad on. *)
Fixpoint a2b_base64_loop (ascii_data : bytes) (quad_pos : nat) (leftchar : N)
    (pads : nat) (bin_data : bytes) : result bytes :=
  match ascii_data with
  | [] =>
      match quad_pos with
      | 0 => Ok bin_data
      | 1 => Raise (binascii_Error (Invalid_length (length bin_data / 3 * 4 + 1)))
      | _ => Raise (binascii_Error Incorrect_padding)
      end
  | c :: ascii_data =>
      let this_ch := Byte.to_N c in
      if (this_ch =? BASE64_PAD)%N then
        if 2 <=? quad_pos then
          if 4 <=? quad_pos + S pads then Ok bin_data
          else a2b_base64_loop ascii_data quad_pos leftchar (S pads) bin_data
        else a2b_base64_loop ascii_data quad_pos leftchar pads bin_data
      else
        match table_a2b_base64 this_ch with
        | None => a2b_base64_loop ascii_data quad_pos leftchar pads bin_data
        | Some this_ch =>
            match quad_pos with
            | 0 => a2b_base64_loop ascii_data 1 this_ch 0 bin_data
            | 1 =>
                a2b_base64_loop ascii_data 2 (N.land this_ch 15) 0
                  (bin_data ++ [u8 (N.lor (N.shiftl leftchar 2) (N.shiftr this_ch 4))])
            | 2 =>
                a2b_base64_loop ascii_data 3 (N.land this_ch 3) 0
                  (bin_data ++ [u8 (N.lor (N.shiftl leftchar 4) (N.shiftr this_ch 2))])
            | _ =>
                a2b_base64_loop ascii_data 0 0 0
                  (bin_data ++ [u8 (N.lor (N.shiftl leftchar 6) this_ch)])
            end
        end
  end.

Definition a2b_base64 (data : bytes) : result bytes :=
  a2b_base64_loop data 0 0 0 [].

(** [s.encode("ascii")] as [base64._bytes_from_decode_data] calls it. *)
Fixpoint _bytes_from_decode_data (s : string) : result bytes :=
  match s with
  | EmptyString => Ok []
  | String c s =>
      if (N_of_ascii c <? 128)%N then
        match _bytes_from_decode_data s with
        | Ok b => Ok (byte_of_ascii c :: b)
        | Raise e => Raise e
        end
      else Raise ValueError_not_ascii
  end.

(** [base64.b64decode(s)], with its default [validate=False]. *)
Definition b64decode (s : string) : result bytes :=
  match _bytes_from_decode_data s with
  | Ok data => a2b_base64 data
  | Raise e => Raise e
  end.

(** ** str slices *)

(** [s[n:]] *)
Fixpoint str_from (n : nat) (s : string) : string :=
  match n, s with
  | 0, _ => s
  | S n, String _ s => str_from n s
  | S _, EmptyString => EmptyString
  end.

(** [s[0:n]] *)
Definition str_upto (n : nat) (s : string) : string := substring 0 n s.

(** ** numpy *)

(** An array of [uint8] over a buffer: [np.frombuffer] gives the flat view and
    [reshape] its shape; the elements stay where they are. *)
Record ndarray := mkarray { shape : N * N * N; buffer : bytes }.

(** [np.frombuffer(data, dtype=np.uint8).reshape((height, width, 4))] *)
Definition frombuffer_reshape (data : bytes) (height width : N) : result ndarray :=
  if (N.of_nat (length data) =? height * width * 4)%N
  then Ok (mkarray (height, width, 4%N) data)
  else Raise (ValueError_reshape (length data) (height, width, 4%N)).

(** [n] consecutive chunks of [k] elements. *)
Fixpoint chunks {A} (k n : nat) (l : list A) : list (list A) :=
  match n with
  | 0 => []
  | S n => take k l :: chunks k n (drop k l)
  end.

(** [a.tolist()]: the rows of the array, each a list of pixels, in C order. *)
Definition tolist (a : ndarray) : list (list (list N)) :=
  let '(h, w, c) := shape a in
  chunks (N.to_nat c) (N.to_nat w)
  <$> chunks (N.to_nat w * N.to_nat c) (N.to_nat h) (ints_of (buffer a)).

(** ** The decoder *)

Abbreviation layers_t := (gmap N ndarray).

Section Decoder.

(** [zstd.decompress] belongs to the Zstandard library: the decoder is
    written over any function from a compressed payload to its content or
    to the message of a [zstd.Error]. *)
Variable zstd_decompress : bytes -> string + bytes.

Definition decompress (compressed_data : bytes) : result bytes :=
  match zstd_decompress compressed_data with
  | inr uncompressed_data => Ok uncompressed_data
  | inl msg => Raise (zstd_Error msg)
  end.

Definition _read_block : M (N * bytes) :=
  let* block_size := _readint in
  let* layer_id := _readint in
  let* buffer_size := _readint in
  let* compressed_data := read (Z.of_N block_size - 12) in
  let* uncompressed_data := lift (decompress compressed_data) in
  if negb (N.of_nat (length uncompressed_data) =? buffer_size)%N
  then raise (ValueError_decompressed_size buffer_size (length compressed_data))
  else ret (layer_id, uncompressed_data).

(** The body of the [while] loop of [read_blueprint]. *)
Definition read_layer (width height : N) (layers : layers_t) : M layers_t :=
  let* (layer_id, uncompressed_data) := _read_block in
  let* rgba := lift (frombuffer_reshape uncompressed_data height width) in
  ret (<[layer_id := rgba]> layers).

(** [while buf.tell() < len(decoded_string): ...].  Every turn of the loop
    moves the cursor, so the loop takes at most as many turns as there are
    bytes left; [fuel] counts them down ([read_blocks_unfold] below is the
    equation of the loop, and holds for any such [fuel]). *)
Fixpoint read_blocks (fuel : nat) (width height : N) (layers : layers_t)
    : M layers_t :=
  fun buf =>
    match fuel with
    | 0 => Ok (layers, buf)
    | S fuel =>
        if tell buf <? length (getvalue buf) then
          (let* layers := read_layer width height layers in
           read_blocks fuel width height layers) buf
        else Ok (layers, buf)
    end.

(** What [read_blueprint] does with the decoded bytes (the header, the
    loop and the [return]). *)
Definition read_container (decoded_string : bytes)
    : result (list N * layers_t) :=
  let buf := BytesIO_new decoded_string in
  match
    (let* (version, checksum, width, height) := _read_header in
     let* layers := read_blocks (length decoded_string) width height ∅ in
     ret (version, layers)) buf
  with
  | Ok (r, _) => Ok r
  | Raise e => Raise e
  end.

Definition read_blueprint (blueprint_string : string)
    : result (list N * layers_t) :=
  if String.length blueprint_string <? 40 then Raise ValueError_too_short
  else
    let blueprint_identifier := str_upto 4 blueprint_string in
    if negb (String.eqb blueprint_identifier "VCB+")
    then Raise (ValueError_identifier blueprint_identifier)
    else
      match b64decode (str_from 4 blueprint_string) with
      | Raise e => Raise e
      | Ok decoded_string => read_container decoded_string
      end.

(** The blocks of a container in stream order, as the loop meets them:
    the layer id and the raster of each turn. *)
Definition read_layer_entry (width height : N) : M (N * ndarray) :=
  let* (layer_id, uncompressed_data) := _read_block in
  let* rgba := lift (frombuffer_reshape uncompressed_data height width) in
  ret (layer_id, rgba).

Fixpoint block_stream (fuel : nat) (width height : N) : M (list (N * ndarray)) :=
  fun buf =>
    match fuel with
    | 0 => Ok ([], buf)
    | S fuel =>
        if tell buf <? length (getvalue buf) then
          (let* entry := read_layer_entry width height in
           let* entries := block_stream fuel width height in
           ret (entry :: entries)) buf
        else Ok ([], buf)
    end.

(** The four reads that open [_read_block]: the header triple of the block
    at the cursor and its payload. *)
Definition block_fields : M (N * N * N * bytes) :=
  let* block_size := _readint in
  let* layer_id := _readint in
  let* buffer_size := _readint in
  let* compressed_data := read (Z.of_N block_size - 12) in
  ret (block_size, layer_id, buffer_size, compressed_data).

(** The states in which the loop, entered with the buffer [buf0], comes to
    its test: on entry with no layer, and after every turn that did not
    raise. *)
Inductive loop_at (width height : N) (buf0 : BytesIO)
    : layers_t -> BytesIO -> Prop :=
| loop_entry : loop_at width height buf0 ∅ buf0
| loop_turn layers buf layers' buf' :
    loop_at width height buf0 layers buf ->
    tell buf < length (getvalue buf) ->
    read_layer width height layers buf = Ok (layers', buf') ->
    loop_at width height buf0 layers' buf'.

(** [read_blueprint s] has passed the envelope and the header, which gave
    [version], [width] and [height], and is at the test of its loop with
    [layers] and [buf]. *)
Definition decoding (s : string) (version : list N) (width height : N)
    (layers : layers_t) (buf : BytesIO) : Prop :=
  40 <= String.length s /\ str_upto 4 s = "VCB+"%string /\
  exists decoded_string checksum buf0,
    b64decode (str_from 4 s) = Ok decoded_string /\
    _read_header (BytesIO_new decoded_string)
      = Ok ((version, checksum, width, height), buf0) /\
    loop_at width height buf0 layers buf.

(** The blocks of a blueprint string in stream order. *)
Definition blueprint_blocks (blueprint_string : string)
    : result (list (N * ndarray)) :=
  match b64decode (str_from 4 blueprint_string) with
  | Raise e => Raise e
  | Ok decoded_string =>
      match
        (let* (version, checksum, width, height) := _read_header in
         block_stream (length decoded_string) width height)
          (BytesIO_new decoded_string)
      with
      | Ok (entries, _) => Ok entries
      | Raise e => Raise e
      end
  end.

End Decoder.

(** The dictionary a sequence of assignments [layers[layer_id] = rgba]
    builds. *)
Definition assign_all (layers : layers_t) (entries : list (N * ndarray))
    : layers_t :=
  foldl (fun layers entry => <[entry.1 := entry.2]> layers) layers entries.

(** Valid base64, in the words of the specification: text over the standard
    alphabet as an encoder with padding produces it (RFC 4648, section 4),
    that is, quads of characters of the alphabet, the last one possibly
    ending in one or two pad characters. *)
Definition is_base64_digit (c : ascii) : bool :=
  match table_a2b_base64 (N_of_ascii c) with Some _ => true | None => false end.

Fixpoint valid_base64_quads (l : list ascii) : bool :=
  match l with
  | [] => true
  | [a; b; c; d] =>
      is_base64_digit a && is_base64_digit b
      && ((is_base64_digit c && (is_base64_digit d || Ascii.eqb d "="))
          || (Ascii.eqb c "=" && Ascii.eqb d "="))
  | a :: b :: c :: d :: l =>
      is_base64_digit a && is_base64_digit b && is_base64_digit c
      && is_base64_digit d && valid_base64_quads l
  | _ => false
  end.

Definition valid_base64 (s : string) : bool :=
  valid_base64_quads (list_ascii_of_string s).

(** ** A decompressor for stored frames, and inputs *)

(** A Zstandard frame that stores its content in one raw block (RFC 8878,
    3.1.1): the magic number, a frame header descriptor with the
    Single_Segment flag alone, the content size in one byte, and a block
    header with Last_Block set, Block_Type Raw_Block and the content size. *)
Definition stored_frame (content : bytes) : bytes :=
  let n := N.of_nat (length content) in
  bytes_of [40; 181; 47; 253; 32; n; (8 * n + 1) mod 256; (8 * n + 1) / 256; 0]%N
  ++ content.

(** A decompressor that knows stored frames of 1 to 31 bytes only, and
    reports every other payload as an error.  It stands for [zstd.decompress]
    in the examples, whose payloads are all of that form; the general
    statements are about every decompressor. *)
Definition zstd_stored (compressed_data : bytes) : string + bytes :=
  let content := drop 9 compressed_data in
  if decide (0 < length content < 32 /\ compressed_data = stored_frame content)
  then inr content
  else inl "Error: input is not a stored frame"%string.

Definition pixels : bytes := bytes_of [255; 0; 0; 255; 0; 255; 0; 255]%N.

Definition header_bytes (checksum : list N) (width height : N) : bytes :=
  bytes_of [1; 2; 3]%N ++ bytes_of checksum
  ++ struct_pack_I width ++ struct_pack_I height.

Definition block_bytes (block_size layer_id buffer_size : N) (payload : bytes)
    : bytes :=
  struct_pack_I block_size ++ struct_pack_I layer_id
  ++ struct_pack_I buffer_size ++ payload.

(** The bytes of the example of the specification: version 1.2.3, a
    checksum, width 2 and height 1, and one block for layer 7 that stores the
    two pixels. *)
Definition checksum_a : list N := [10; 11; 12; 13; 14; 15]%N.
Definition checksum_b : list N := [255; 238; 221; 204; 187; 170]%N.

Definition example_bytes : bytes :=
  header_bytes checksum_a 2 1 ++ block_bytes 29 7 8 (stored_frame pixels).

(** The example as a blueprint string, and variants of it: with another
    checksum; with characters outside the base64 alphabet in it; with a
    declared block size of 0, and of 1000; with a declared uncompressed size
    of 9; with a header of width 3; with a second block for layer 7 in front;
    cut after 11 bytes of the block; the header alone, and the header cut to
    16 bytes, both with blanks to reach 40 characters.  Two more strings
    have no blueprint in them: 36 characters that are no base64 digits, and
    37 base64 digits, one more than a number of quads. *)
Definition example_string : string :=
  "VCB+AQIDCgsMDQ4PAAAAAgAAAAEAAAAdAAAABwAAAAgotS/9IAhBAAD/AAD/AP8A/w==".
Definition other_checksum_string : string :=
  "VCB+AQID/+7dzLuqAAAAAgAAAAEAAAAdAAAABwAAAAgotS/9IAhBAAD/AAD/AP8A/w==".
Definition junk_string : string :=
  "VCB+AQIDCgsMDQ 4PAAAAAgAAAAEAAAAdAA!*AABwAAAAgotS/9IAhBAAD/AAD/AP8A/w==".
Definition no_base64_string : string :=
  "VCB+!!!!!!!!!!!!!!!!!!!!!!!!!!!!!!!!!!!!".
Definition one_char_over_string : string :=
  "VCB+AAAAAAAAAAAAAAAAAAAAAAAAAAAAAAAAAAAAA".
Definition block_size_0_string : string :=
  "VCB+AQIDCgsMDQ4PAAAAAgAAAAEAAAAAAAAABwAAAAgotS/9IAhBAAD/AAD/AP8A/w==".
Definition block_size_1000_string : string :=
  "VCB+AQIDCgsMDQ4PAAAAAgAAAAEAAAPoAAAABwAAAAgotS/9IAhBAAD/AAD/AP8A/w==".
Definition size_9_string : string :=
  "VCB+AQIDCgsMDQ4PAAAAAgAAAAEAAAAdAAAABwAAAAkotS/9IAhBAAD/AAD/AP8A/w==".
Definition width_3_string : string :=
  "VCB+AQIDCgsMDQ4PAAAAAwAAAAEAAAAdAAAABwAAAAgotS/9IAhBAAD/AAD/AP8A/w==".
Definition two_blocks_string : string :=
  "VCB+AQIDCgsMDQ4PAAAAAgAAAAEAAAAdAAAABwAAAAgotS/9IAhBAAABAgMEBQYHCAAAAB0AAAAHAAAACCi1L/0gCEEAAP8AAP8A/wD/".
Definition cut_block_string : string :=
  "VCB+AQIDCgsMDQ4PAAAAAgAAAAEAAAAdAAAABwAAAA==".
Definition header_only_string : string :=
  "VCB+AQIDCgsMDQ4P            AAAAAgAAAAE=".
Definition cut_header_string : string :=
  "VCB+AQIDCgsMDQ4PAAAAAgAAAA==                    ".

(** The decoded bytes of the variants. *)
Definition size_9_bytes : bytes :=
  header_bytes checksum_a 2 1 ++ block_bytes 29 7 9 (stored_frame pixels).
Definition width_3_bytes : bytes :=
  header_bytes checksum_a 3 1 ++ block_bytes 29 7 8 (stored_frame pixels).
Definition block_size_0_bytes : bytes :=
  header_bytes checksum_a 2 1 ++ block_bytes 0 7 8 (stored_frame pixels).
Definition block_size_1000_bytes : bytes :=
  header_bytes checksum_a 2 1 ++ block_bytes 1000 7 8 (stored_frame pixels).
Definition cut_block_bytes : bytes :=
  header_bytes checksum_a 2 1 ++ take 11 (block_bytes 29 7 8 (stored_frame pixels)).
Definition other_checksum_bytes : bytes :=
  header_bytes checksum_b 2 1 ++ block_bytes 29 7 8 (stored_frame pixels).

(** What a decode returns, with the layers listed in nested-list form. *)
Definition listing (r : result (list N * layers_t))
    : result (list N * list (N * list (list (list N)))) :=
  match r with
  | Ok (version, layers) => Ok (version, map_to_list (tolist <$> layers))
  | Raise e => Raise e
  end.

(** ** Reading the same bytes *)

(** Two buffers at the same position, with the same bytes from it on and as
    many bytes in all. *)
Definition same_rest (buf1 buf2 : BytesIO) : Prop :=
  tell buf1 = tell buf2 /\
  length (getvalue buf1) = length (getvalue buf2) /\
  drop (tell buf1) (getvalue buf1) = drop (tell buf2) (getvalue buf2).

(** The outcomes of a reader on two buffers are the same. *)
Definition same_outcome {A} (r1 r2 : result (A * BytesIO)) : Prop :=
  match r1, r2 with
  | Ok (a1, buf1), Ok (a2, buf2) => a1 = a2 /\ same_rest buf1 buf2
  | Raise e1, Raise e2 => e1 = e2
  | _, _ => False
  end.

(** A reader that looks at nothing before the cursor. *)
Definition forward {A} (m : M A) : Prop :=
  forall buf1 buf2, same_rest buf1 buf2 -> same_outcome (m buf1) (m buf2).

(** ** Building containers *)

(** A block as the reader expects it: the size of the whole block, the layer
    id, the size of the content, and the compressed content.  A block is
    given by its layer id, its compressed payload and its content. *)
Definition encode_block (block : N * bytes * bytes) : bytes :=
  let '(layer_id, compressed, content) := block in
  block_bytes (12 + N.of_nat (length compressed)) layer_id
    (N.of_nat (length content)) compressed.

Definition container_bytes (version checksum : bytes) (width height : N)
    (blocks : list (N * bytes * bytes)) : bytes :=
  version ++ checksum ++ struct_pack_I width ++ struct_pack_I height
  ++ concat (encode_block <$> blocks).

(** The layer a block gives in a container of that width and height. *)
Definition layer_of_block (width height : N) (block : N * bytes * bytes)
    : N * ndarray :=
  let '(layer_id, _, content) := block in
  (layer_id, mkarray (height, width, 4%N) content).

(** More inputs: the example with its frame cut by one byte (and the block
    size lowered accordingly), the example with a character outside ASCII
    after 36 base64 digits, and the two halves of the example string around
    its 14th character. *)
Definition cut_frame_string : string :=
  "VCB+AQIDCgsMDQ4PAAAAAgAAAAEAAAAcAAAABwAAAAgotS/9IAhBAAD/AAD/AP8A".
Definition cut_frame_bytes : bytes :=
  header_bytes checksum_a 2 1 ++ block_bytes 28 7 8 (take 16 (stored_frame pixels)).
Definition non_ascii_string : string :=
  ("VCB+AAAAAAAAAAAAAAAAAAAAAAAAAAAAAAAAAAAA"
   ++ String (ascii_of_N 233) EmptyString)%string.
Definition example_front : string := "VCB+AQIDCgsMDQ".
Definition example_back : string :=
  "4PAAAAAgAAAAEAAAAdAAAABwAAAAgotS/9IAhBAAD/AAD/AP8A/w==".
Definition other_pixels : bytes := bytes_of [1; 2; 3; 4; 5; 6; 7; 8]%N.

(** A block a reader with the decompressor [zstd_decompress] accepts in a
    container of that width and height: its fields fit in 32 bits, its payload
    decompresses to its content, and the content has the size of a raster. *)
Definition well_formed_block (zstd_decompress : bytes -> string + bytes)
    (width height : N) (block : N * bytes * bytes) : Prop :=
  let '(layer_id, compressed, content) := block in
  (layer_id < 2 ^ 32)%N /\
  (12 + N.of_nat (length compressed) < 2 ^ 32)%N /\
  (N.of_nat (length content) < 2 ^ 32)%N /\
  zstd_decompress compressed = inr content /\
  N.of_nat (length content) = (height * width * 4)%N.

(** * Properties *)

(** ** Reading from a buffer *)

Lemma BytesIO_read_nat (n : nat) (buf : BytesIO) :
  BytesIO_read (Z.of_nat n) buf
  = (take n (drop (tell buf) (getvalue buf)), advance (n `min` remaining buf) buf).
Proof.
  unfold BytesIO_read, advance.
  assert (Hlen : length (drop (tell buf) (getvalue buf)) = remaining buf)
    by (unfold remaining; apply length_drop).
  destruct (Z.ltb_spec (Z.of_nat n) 0); [lia |].
  destruct (Z.ltb_spec (Z.of_nat (remaining buf)) (Z.of_nat n)); simpl.
  - rewrite !take_ge by lia. f_equal. f_equal. lia.
  - rewrite Nat2Z.id. f_equal. f_equal. lia.
Qed.

Lemma BytesIO_read_negative (size : Z) (buf : BytesIO) :
  (size < 0)%Z ->
  BytesIO_read size buf
  = (drop (tell buf) (getvalue buf), advance (remaining buf) buf).
Proof.
  intros Hneg. unfold BytesIO_read, advance.
  destruct (Z.ltb_spec size 0); [simpl | lia].
  rewrite take_ge; [reflexivity |].
  unfold remaining. rewrite length_drop. lia.
Qed.

Lemma remaining_advance (n : nat) (buf : BytesIO) :
  remaining (advance n buf) = remaining buf - n.
Proof. unfold remaining, advance. simpl. lia. Qed.

Lemma advance_advance (n m : nat) (buf : BytesIO) :
  advance m (advance n buf) = advance (n + m) buf.
Proof. unfold advance. simpl. f_equal. lia. Qed.

Lemma struct_unpack_I_length (b : bytes) :
  length b = 4 -> exists n, struct_unpack_I b = Ok n.
Proof.
  intros H. do 4 (destruct b as [| ? b]; [discriminate |]).
  destruct b; [| discriminate]. eexists. reflexivity.
Qed.

Lemma struct_unpack_I_short (b : bytes) :
  length b <> 4 -> struct_unpack_I b = Raise struct_error.
Proof.
  intros H. do 4 (destruct b as [| ? b]; [reflexivity |]).
  destruct b; [simpl in H; lia | reflexivity].
Qed.

(** [_readint] reads a field when four bytes are left and raises
    [struct.error] otherwise. *)
Lemma readint_eq (buf : BytesIO) :
  _readint buf
  = if 4 <=? remaining buf
    then Ok (u32_at (getvalue buf) (tell buf), advance 4 buf)
    else Raise struct_error.
Proof.
  unfold _readint, bind, read, lift.
  change 4%Z with (Z.of_nat 4). rewrite BytesIO_read_nat.
  assert (Hlen : length (take 4 (drop (tell buf) (getvalue buf)))
                 = 4 `min` remaining buf)
    by (unfold remaining; rewrite length_take, length_drop; reflexivity).
  destruct (Nat.leb_spec 4 (remaining buf)) as [Hge | Hlt].
  - destruct (struct_unpack_I_length _ ltac:(rewrite Hlen; lia)) as [n Hn].
    unfold u32_at. rewrite Hn. do 2 f_equal. f_equal. lia.
  - rewrite struct_unpack_I_short by lia. reflexivity.
Qed.

Lemma read_eq (n : nat) (buf : BytesIO) :
  read (Z.of_nat n) buf
  = Ok (take n (drop (tell buf) (getvalue buf)), advance (n `min` remaining buf) buf).
Proof. unfold read. rewrite BytesIO_read_nat. reflexivity. Qed.

(** [_read_header] succeeds exactly when 17 bytes are left. *)
Lemma read_header_eq (buf : BytesIO) :
  _read_header buf
  = if 17 <=? remaining buf
    then Ok ((ints_of (take 3 (drop (tell buf) (getvalue buf))),
              take 6 (drop (tell buf + 3) (getvalue buf)),
              u32_at (getvalue buf) (tell buf + 9),
              u32_at (getvalue buf) (tell buf + 13)),
             advance 17 buf)
    else Raise struct_error.
Proof.
  unfold _read_header, bind, ret.
  change 3%Z with (Z.of_nat 3). change 6%Z with (Z.of_nat 6).
  rewrite !read_eq, !readint_eq. rewrite !remaining_advance.
  destruct (Nat.leb_spec 17 (remaining buf)) as [Hge | Hlt].
  - rewrite !Nat.min_l by lia.
    destruct (Nat.leb_spec 4 (remaining buf - 3 - 6)); [| lia].
    rewrite readint_eq, !remaining_advance.
    destruct (Nat.leb_spec 4 (remaining buf - 3 - 6 - 4)); [| lia].
    rewrite !advance_advance. simpl.
    repeat f_equal; lia.
  - destruct (Nat.leb_spec 4 (remaining buf - 3 `min` remaining buf
                              - 6 `min` (remaining buf - 3 `min` remaining buf)));
      [| reflexivity].
    rewrite readint_eq, !remaining_advance.
    destruct (Nat.leb_spec 4 (remaining buf - 3 `min` remaining buf
                              - 6 `min` (remaining buf - 3 `min` remaining buf) - 4));
      [lia | reflexivity].
Qed.

Lemma BytesIO_read_advance (size : Z) (buf : BytesIO) :
  exists k, k <= remaining buf /\
    BytesIO_read size buf
    = (take k (drop (tell buf) (getvalue buf)), advance k buf).
Proof.
  unfold BytesIO_read, advance.
  destruct ((size <? 0)%Z || (Z.of_nat (remaining buf) <? size)%Z) eqn:Hc.
  - exists (remaining buf). split; [lia | reflexivity].
  - exists (Z.to_nat size). split; [| reflexivity].
    apply orb_false_elim in Hc as [H1 H2].
    apply Z.ltb_ge in H1, H2. lia.
Qed.

(** A read of more bytes than are left returns the bytes that are left. *)
Lemma BytesIO_read_short (size : Z) (buf : BytesIO) :
  (Z.of_nat (remaining buf) < size)%Z ->
  BytesIO_read size buf
  = (drop (tell buf) (getvalue buf), advance (remaining buf) buf).
Proof.
  intros Hlt. unfold BytesIO_read, advance.
  destruct (Z.ltb_spec (Z.of_nat (remaining buf)) size); [| lia].
  rewrite orb_true_r. rewrite take_ge; [reflexivity |].
  unfold remaining. rewrite length_drop. lia.
Qed.

Lemma u32_at_bound (data : bytes) (pos : nat) : (u32_at data pos < 2 ^ 32)%N.
Proof.
  unfold u32_at. destruct (take 4 (drop pos data)) as [| a [| b [| c [| d [| ? ?]]]]];
    simpl; try reflexivity.
  pose proof (Byte.to_N_bounded a). pose proof (Byte.to_N_bounded b).
  pose proof (Byte.to_N_bounded c). pose proof (Byte.to_N_bounded d).
  change (2 ^ 32)%N with 4294967296%N. lia.
Qed.

Section Decoder_facts.

Variable zstd_decompress : bytes -> string + bytes.

(** The header triple and the payload of the block at the cursor. *)
Lemma block_fields_eq (buf : BytesIO) :
  block_fields buf
  = if 12 <=? remaining buf
    then
      let block_size := u32_at (getvalue buf) (tell buf) in
      let (compressed_data, buf') :=
        BytesIO_read (Z.of_N block_size - 12) (advance 12 buf) in
      Ok ((block_size,
           u32_at (getvalue buf) (tell buf + 4),
           u32_at (getvalue buf) (tell buf + 8),
           compressed_data), buf')
    else Raise struct_error.
Proof.
  unfold block_fields, bind, ret, read.
  rewrite readint_eq.
  destruct (Nat.leb_spec 12 (remaining buf)) as [Hge | Hlt].
  - destruct (Nat.leb_spec 4 (remaining buf)); [| lia].
    rewrite readint_eq, remaining_advance.
    destruct (Nat.leb_spec 4 (remaining buf - 4)); [| lia].
    rewrite readint_eq, !remaining_advance.
    destruct (Nat.leb_spec 4 (remaining buf - 4 - 4)); [| lia].
    rewrite !advance_advance. cbn [getvalue tell advance].
    change (4 + (4 + 4)) with 12. change (4 + 4) with 8.
    reflexivity.
  - destruct (Nat.leb_spec 4 (remaining buf)); [| reflexivity].
    rewrite readint_eq, remaining_advance.
    destruct (Nat.leb_spec 4 (remaining buf - 4)); [| reflexivity].
    rewrite readint_eq, !remaining_advance.
    destruct (Nat.leb_spec 4 (remaining buf - 4 - 4)); [lia | reflexivity].
Qed.

(** [_read_block] is its four reads, the decompression and the check of
    the size. *)
Lemma read_block_fields (buf : BytesIO) :
  _read_block zstd_decompress buf
  = match block_fields buf with
    | Raise e => Raise e
    | Ok ((_, layer_id, buffer_size, compressed_data), buf') =>
        match zstd_decompress compressed_data with
        | inl msg => Raise (zstd_Error msg)
        | inr uncompressed_data =>
            if (N.of_nat (length uncompressed_data) =? buffer_size)%N
            then Ok ((layer_id, uncompressed_data), buf')
            else Raise (ValueError_decompressed_size buffer_size
                          (length compressed_data))
        end
    end.
Proof.
  unfold _read_block, block_fields, bind, ret, lift, raise, decompress.
  destruct (_readint buf) as [[block_size buf1] |]; [| reflexivity].
  destruct (_readint buf1) as [[layer_id buf2] |]; [| reflexivity].
  destruct (_readint buf2) as [[buffer_size buf3] |]; [| reflexivity].
  destruct (read _ buf3) as [[compressed_data buf4] |]; [| reflexivity].
  destruct (zstd_decompress compressed_data) as [msg | u]; [reflexivity |].
  destruct (N.of_nat (length u) =? buffer_size)%N; reflexivity.
Qed.

(** A block that is read leaves the bytes alone and moves the cursor by at
    least the 12 bytes of its header triple, and not beyond the end. *)
Lemma block_fields_moves (buf buf' : BytesIO) (fields : N * N * N * bytes) :
  block_fields buf = Ok (fields, buf') ->
  exists k, 12 <= k <= remaining buf /\ buf' = advance k buf.
Proof.
  rewrite block_fields_eq.
  destruct (Nat.leb_spec 12 (remaining buf)) as [Hge | Hlt]; [| discriminate].
  cbv zeta.
  destruct (BytesIO_read_advance
              (Z.of_N (u32_at (getvalue buf) (tell buf)) - 12) (advance 12 buf))
    as (k & Hk & ->).
  intros [= <- <-]. rewrite remaining_advance in Hk.
  exists (12 + k). split; [lia |]. apply advance_advance.
Qed.

Lemma read_block_moves (buf buf' : BytesIO) (block : N * bytes) :
  _read_block zstd_decompress buf = Ok (block, buf') ->
  exists k, 12 <= k <= remaining buf /\ buf' = advance k buf.
Proof.
  rewrite read_block_fields.
  destruct (block_fields buf) as [[[[[bs id] sz] c] buf1] |] eqn:Hf;
    [| discriminate].
  destruct (zstd_decompress c); [discriminate |].
  destruct (_ =? _)%N; [| discriminate].
  intros [= <- <-]. eapply block_fields_moves, Hf.
Qed.

Lemma read_layer_eq (width height : N) (layers : layers_t) (buf : BytesIO) :
  read_layer zstd_decompress width height layers buf
  = match _read_block zstd_decompress buf with
    | Raise e => Raise e
    | Ok ((layer_id, uncompressed_data), buf') =>
        match frombuffer_reshape uncompressed_data height width with
        | Raise e => Raise e
        | Ok rgba => Ok (<[layer_id := rgba]> layers, buf')
        end
    end.
Proof.
  unfold read_layer, bind, lift, ret.
  destruct (_read_block zstd_decompress buf) as [[[id u] buf'] |]; [| reflexivity].
  destruct (frombuffer_reshape u height width); reflexivity.
Qed.

Lemma read_layer_moves (width height : N) (layers layers' : layers_t)
    (buf buf' : BytesIO) :
  read_layer zstd_decompress width height layers buf = Ok (layers', buf') ->
  exists k, 12 <= k <= remaining buf /\ buf' = advance k buf.
Proof.
  rewrite read_layer_eq.
  destruct (_read_block zstd_decompress buf) as [[[id u] buf1] |] eqn:Hb; [| discriminate].
  destruct (frombuffer_reshape u height width); [| discriminate].
  intros [= <- <-]. eapply read_block_moves, Hb.
Qed.

(** *** The loop *)

(** Fuel beyond the number of bytes left changes nothing. *)
Lemma read_blocks_fuel (fuel1 fuel2 : nat) (width height : N)
    (layers : layers_t) (buf : BytesIO) :
  remaining buf <= fuel1 -> remaining buf <= fuel2 ->
  read_blocks zstd_decompress fuel1 width height layers buf
  = read_blocks zstd_decompress fuel2 width height layers buf.
Proof.
  revert fuel2 layers buf.
  induction fuel1 as [| fuel1 IH]; intros [| fuel2] layers buf H1 H2;
    try reflexivity; simpl.
  - destruct (Nat.ltb_spec (tell buf) (length (getvalue buf)));
      [unfold remaining in *; lia | reflexivity].
  - destruct (Nat.ltb_spec (tell buf) (length (getvalue buf)));
      [unfold remaining in *; lia | reflexivity].
  - destruct (tell buf <? length (getvalue buf)); [| reflexivity].
    unfold bind.
    destruct (read_layer zstd_decompress width height layers buf)
      as [[layers' buf'] |] eqn:Hl; [| reflexivity].
    apply read_layer_moves in Hl as (k & Hk & ->).
    apply IH; rewrite remaining_advance; lia.
Qed.

(** The equation of the [while] loop. *)
Lemma read_blocks_unfold (fuel : nat) (width height : N)
    (layers : layers_t) (buf : BytesIO) :
  remaining buf <= fuel ->
  read_blocks zstd_decompress fuel width height layers buf
  = if tell buf <? length (getvalue buf)
    then
      match read_layer zstd_decompress width height layers buf with
      | Raise e => Raise e
      | Ok (layers', buf') =>
          read_blocks zstd_decompress (remaining buf') width height layers' buf'
      end
    else Ok (layers, buf).
Proof.
  intros Hfuel. destruct fuel as [| fuel]; simpl.
  - destruct (Nat.ltb_spec (tell buf) (length (getvalue buf)));
      [unfold remaining in *; lia | reflexivity].
  - destruct (tell buf <? length (getvalue buf)); [| reflexivity].
    unfold bind.
    destruct (read_layer zstd_decompress width height layers buf)
      as [[layers' buf'] |] eqn:Hl; [| reflexivity].
    apply read_layer_moves in Hl as (k & Hk & ->).
    apply read_blocks_fuel; rewrite remaining_advance; lia.
Qed.

(** The loop always comes to an end: past the last byte it returns. *)
Lemma read_blocks_end (fuel : nat) (width height : N)
    (layers : layers_t) (buf : BytesIO) :
  length (getvalue buf) <= tell buf ->
  read_blocks zstd_decompress fuel width height layers buf = Ok (layers, buf).
Proof.
  intros Hend. destruct fuel; [reflexivity |]. simpl.
  destruct (Nat.ltb_spec (tell buf) (length (getvalue buf))); [lia | reflexivity].
Qed.

Lemma loop_at_result (width height : N) (buf0 : BytesIO)
    (layers : layers_t) (buf : BytesIO) (fuel : nat) :
  loop_at zstd_decompress width height buf0 layers buf ->
  remaining buf0 <= fuel ->
  read_blocks zstd_decompress fuel width height ∅ buf0
  = read_blocks zstd_decompress (remaining buf) width height layers buf.
Proof.
  intros Hat Hfuel. induction Hat as [| layers buf layers' buf' _ IH Hlt Hl].
  - apply read_blocks_fuel; lia.
  - rewrite IH, read_blocks_unfold by lia.
    apply Nat.ltb_lt in Hlt. rewrite Hlt, Hl. reflexivity.
Qed.

(** What [read_blueprint] returns, from a state of its loop. *)
Lemma decoding_result (s : string) (version : list N) (width height : N)
    (layers : layers_t) (buf : BytesIO) :
  decoding zstd_decompress s version width height layers buf ->
  read_blueprint zstd_decompress s
  = match read_blocks zstd_decompress (remaining buf) width height layers buf with
    | Ok (layers', _) => Ok (version, layers')
    | Raise e => Raise e
    end.
Proof.
  intros (Hlen & Hid & d & checksum & buf0 & Hd & Hh & Hat).
  unfold read_blueprint.
  destruct (Nat.ltb_spec (String.length s) 40); [lia |].
  rewrite Hid. simpl negb. cbv iota. rewrite Hd.
  unfold read_container, bind, ret. rewrite Hh.
  assert (Hfuel : remaining buf0 <= length d).
  { rewrite read_header_eq in Hh.
    destruct (17 <=? remaining (BytesIO_new d)); [| discriminate].
    injection Hh as _ _ _ _ <-. rewrite remaining_advance.
    unfold remaining, BytesIO_new. simpl. lia. }
  rewrite (loop_at_result _ _ _ _ _ _ Hat Hfuel).
  destruct (read_blocks _ _ _ _ _ _) as [[layers' buf'] |]; reflexivity.
Qed.

(** *** The stream of blocks *)

Lemma read_layer_entry_eq (width height : N) (layers : layers_t) (buf : BytesIO) :
  read_layer zstd_decompress width height layers buf
  = match read_layer_entry zstd_decompress width height buf with
    | Ok ((layer_id, rgba), buf') => Ok (<[layer_id := rgba]> layers, buf')
    | Raise e => Raise e
    end.
Proof.
  unfold read_layer, read_layer_entry, bind, lift, ret.
  destruct (_read_block zstd_decompress buf) as [[[id u] buf'] |]; [| reflexivity].
  destruct (frombuffer_reshape u height width); reflexivity.
Qed.

(** The loop assigns the blocks of the stream, in their order. *)
Lemma read_blocks_stream (fuel : nat) (width height : N)
    (layers : layers_t) (buf : BytesIO) :
  read_blocks zstd_decompress fuel width height layers buf
  = match block_stream zstd_decompress fuel width height buf with
    | Ok (entries, buf') => Ok (assign_all layers entries, buf')
    | Raise e => Raise e
    end.
Proof.
  revert layers buf. induction fuel as [| fuel IH]; intros layers buf; simpl.
  - reflexivity.
  - destruct (tell buf <? length (getvalue buf)); [| reflexivity].
    unfold bind, ret. rewrite read_layer_entry_eq.
    destruct (read_layer_entry zstd_decompress width height buf)
      as [[[id rgba] buf'] |]; [| reflexivity].
    rewrite IH.
    destruct (block_stream zstd_decompress fuel width height buf')
      as [[entries buf''] |]; reflexivity.
Qed.

(** The stream is read to the end of the bytes: its equation is that of the
    loop. *)
Lemma block_stream_unfold (fuel : nat) (width height : N) (buf : BytesIO) :
  remaining buf <= fuel ->
  block_stream zstd_decompress fuel width height buf
  = if tell buf <? length (getvalue buf)
    then
      match read_layer_entry zstd_decompress width height buf with
      | Raise e => Raise e
      | Ok (entry, buf') =>
          match block_stream zstd_decompress (remaining buf') width height buf' with
          | Ok (entries, buf'') => Ok (entry :: entries, buf'')
          | Raise e => Raise e
          end
      end
    else Ok ([], buf).
Proof.
  assert (Hfuel : forall fuel1 fuel2 buf,
    remaining buf <= fuel1 -> remaining buf <= fuel2 ->
    block_stream zstd_decompress fuel1 width height buf
    = block_stream zstd_decompress fuel2 width height buf).
  { clear. induction fuel1 as [| fuel1 IH]; intros [| fuel2] buf H1 H2;
      try reflexivity; simpl.
    - destruct (Nat.ltb_spec (tell buf) (length (getvalue buf)));
        [unfold remaining in *; lia | reflexivity].
    - destruct (Nat.ltb_spec (tell buf) (length (getvalue buf)));
        [unfold remaining in *; lia | reflexivity].
    - destruct (tell buf <? length (getvalue buf)); [| reflexivity].
      unfold bind.
      destruct (read_layer_entry zstd_decompress width height buf)
        as [[entry buf'] |] eqn:He; [| reflexivity].
      pose proof (read_layer_entry_eq width height ∅ buf) as Hl.
      rewrite He in Hl. destruct entry as [id rgba].
      apply read_layer_moves in Hl as (k & Hk & ->).
      rewrite (IH fuel2); [reflexivity | |]; rewrite remaining_advance; lia. }
  intros Hle. destruct fuel as [| fuel]; simpl.
  - destruct (Nat.ltb_spec (tell buf) (length (getvalue buf)));
      [unfold remaining in *; lia | reflexivity].
  - destruct (tell buf <? length (getvalue buf)); [| reflexivity].
    unfold bind, ret.
    destruct (read_layer_entry zstd_decompress width height buf)
      as [[entry buf'] |] eqn:He; [| reflexivity].
    pose proof (read_layer_entry_eq width height ∅ buf) as Hl.
    rewrite He in Hl. destruct entry as [id rgba].
    apply read_layer_moves in Hl as (k & Hk & ->).
    rewrite (Hfuel fuel (remaining (advance k buf)));
      [reflexivity | |]; rewrite remaining_advance; lia.
Qed.

Lemma read_blueprint_stream (s : string) (version : list N) (layers : layers_t) :
  read_blueprint zstd_decompress s = Ok (version, layers) ->
  exists entries,
    blueprint_blocks zstd_decompress s = Ok entries /\
    layers = assign_all ∅ entries.
Proof.
  unfold read_blueprint, blueprint_blocks.
  destruct (String.length s <? 40); [discriminate |].
  destruct (negb _); [discriminate |].
  destruct (b64decode (str_from 4 s)) as [d |]; [| discriminate].
  unfold read_container, bind, ret.
  destruct (_read_header (BytesIO_new d)) as [[[[[v c] w] h] buf] |];
    [| discriminate].
  rewrite read_blocks_stream.
  destruct (block_stream zstd_decompress (length d) w h buf)
    as [[entries buf'] |]; [| discriminate].
  intros [= <- <-]. exists entries. split; reflexivity.
Qed.

End Decoder_facts.

(** ** The header *)

(** C4: on decoded bytes of fewer than 17 bytes the header read fails with
    TruncatedInputError ([struct.error]); on 17 bytes or more it succeeds,
    leaves the cursor 17 bytes further, and returns the 3 version bytes, the 6
    checksum bytes and the two big-endian unsigned 32-bit fields [width] and
    [height]. *)
Theorem read_header_truncated_or_17_bytes (data : bytes) :
  (length data < 17 ->
   _read_header (BytesIO_new data) = Raise struct_error /\
   fails_with (_read_header (BytesIO_new data)) TruncatedInputError) /\
  (17 <= length data ->
   exists version checksum width height,
     _read_header (BytesIO_new data)
     = Ok ((version, checksum, width, height), mkBytesIO data 17) /\
     version = ints_of (take 3 data) /\ length version = 3 /\
     checksum = take 6 (drop 3 data) /\ length checksum = 6 /\
     width = u32_at data 9 /\ height = u32_at data 13 /\
     (width < 2 ^ 32)%N /\ (height < 2 ^ 32)%N).
Proof.
  rewrite read_header_eq.
  assert (Hrem : remaining (BytesIO_new data) = length data)
    by (unfold remaining; simpl; lia).
  rewrite Hrem. split; intros Hlen.
  - destruct (Nat.leb_spec 17 (length data)); [lia |].
    split; [reflexivity |]. exists struct_error. split; reflexivity.
  - destruct (Nat.leb_spec 17 (length data)); [| lia].
    eexists _, _, _, _. simpl. rewrite drop_0.
    split; [reflexivity |].
    split; [reflexivity |].
    split; [unfold ints_of; rewrite length_fmap, length_take; lia |].
    split; [reflexivity |].
    split; [rewrite length_take, length_drop; lia |].
    split; [reflexivity |]. split; [reflexivity |].
    split; apply u32_at_bound.
Qed.

(** ** base64 *)

Lemma to_N_byte_of_ascii (c : ascii) : Byte.to_N (byte_of_ascii c) = N_of_ascii c.
Proof. apply Byte.to_of_N. symmetry. apply byte_of_ascii_via_N. Qed.

(** The decoder raises [binascii.Error] and nothing else. *)
Lemma a2b_base64_loop_raises (data : bytes) (quad_pos : nat) (leftchar : N)
    (pads : nat) (bin_data : bytes) (e : exn) :
  a2b_base64_loop data quad_pos leftchar pads bin_data = Raise e ->
  exists f, e = binascii_Error f.
Proof.
  revert quad_pos leftchar pads bin_data.
  induction data as [| c data IH]; intros quad_pos leftchar pads bin_data;
    cbn [a2b_base64_loop].
  - destruct quad_pos as [| [| quad_pos]]; [discriminate | |];
      intros [= <-]; eexists; reflexivity.
  - destruct (_ =? BASE64_PAD)%N.
    + destruct (2 <=? quad_pos); [| apply IH].
      destruct (4 <=? quad_pos + S pads); [discriminate | apply IH].
    + destruct (table_a2b_base64 _); [| apply IH].
      destruct quad_pos as [| [| [| quad_pos]]]; apply IH.
Qed.

Lemma b64decode_raises (s : string) (e : exn) :
  b64decode s = Raise e -> kind_of e = FormatError.
Proof.
  unfold b64decode.
  destruct (_bytes_from_decode_data s) as [data |] eqn:Hdata.
  - intros H. apply a2b_base64_loop_raises in H as [f ->]. reflexivity.
  - intros [= <-]. revert e0 Hdata.
    induction s as [| c s IH]; intros e0; simpl; [discriminate |].
    destruct (N_of_ascii c <? 128)%N; [| intros [= <-]; reflexivity].
    destruct (_bytes_from_decode_data s); [discriminate |].
    intros [= <-]. apply (IH e). reflexivity.
Qed.

(** A character outside the alphabet, other than the pad, is skipped. *)
Lemma a2b_base64_loop_skip (c : byte) (data : bytes) (quad_pos : nat)
    (leftchar : N) (pads : nat) (bin_data : bytes) :
  Byte.to_N c <> BASE64_PAD ->
  table_a2b_base64 (Byte.to_N c) = None ->
  a2b_base64_loop (c :: data) quad_pos leftchar pads bin_data
  = a2b_base64_loop data quad_pos leftchar pads bin_data.
Proof.
  intros Hpad Htable. cbn [a2b_base64_loop]. rewrite Htable.
  destruct (N.eqb_spec (Byte.to_N c) BASE64_PAD); [contradiction | reflexivity].
Qed.

Lemma base64_digit_byte (c : ascii) :
  is_base64_digit c = true ->
  (Byte.to_N (byte_of_ascii c) =? BASE64_PAD)%N = false /\
  (N_of_ascii c < 128)%N /\
  exists v, table_a2b_base64 (Byte.to_N (byte_of_ascii c)) = Some v.
Proof.
  unfold is_base64_digit. rewrite to_N_byte_of_ascii.
  unfold table_a2b_base64, BASE64_PAD.
  repeat match goal with
         | |- context [(?a <=? ?b)%N] => destruct (N.leb_spec a b)
         | |- context [(?a =? ?b)%N] => destruct (N.eqb_spec a b)
         end; simpl; intros Hdigit; try discriminate; try (exfalso; lia);
    (split; [reflexivity | split; [lia | eexists; reflexivity]]).
Qed.

Lemma pad_byte (c : ascii) :
  Ascii.eqb c "=" = true ->
  (Byte.to_N (byte_of_ascii c) =? BASE64_PAD)%N = true /\ (N_of_ascii c < 128)%N.
Proof. intros H. apply Ascii.eqb_eq in H. subst c. split; reflexivity. Qed.

(** The decoder accepts what an encoder produces. *)
Lemma a2b_base64_loop_accepts (n : nat) (l : list ascii) :
  length l <= n ->
  valid_base64_quads l = true ->
  forall leftchar pads bin_data,
    exists decoded,
      a2b_base64_loop (byte_of_ascii <$> l) 0 leftchar pads bin_data = Ok decoded.
Proof.
  revert l. induction n as [| n IH]; intros l Hn Hvalid leftchar pads bin_data.
  - destruct l; [eexists; reflexivity | simpl in Hn; lia].
  - destruct l as [| a [| b [| c [| d l]]]]; try discriminate;
      [eexists; reflexivity |].
    assert (Hcases :
      is_base64_digit a = true /\ is_base64_digit b = true /\
      ((is_base64_digit c = true /\ is_base64_digit d = true /\
        valid_base64_quads l = true)
       \/ (l = [] /\ is_base64_digit c = true /\ Ascii.eqb d "=" = true)
       \/ (l = [] /\ Ascii.eqb c "=" = true /\ Ascii.eqb d "=" = true))).
    { destruct l as [| x l].
      - simpl in Hvalid.
        repeat match goal with
               | H : _ && _ = true |- _ => apply andb_prop in H as [? ?]
               | H : _ || _ = true |- _ => apply orb_prop in H as [? | ?]
               end; auto 10.
      - cbn -[is_base64_digit] in Hvalid |- *.
        repeat match goal with
               | H : _ && _ = true |- _ => apply andb_prop in H as [? ?]
               end; auto 10. }
    destruct Hcases as (Ha & Hb & Hrest).
    destruct (base64_digit_byte a Ha) as (Ha1 & _ & va & Ha2).
    destruct (base64_digit_byte b Hb) as (Hb1 & _ & vb & Hb2).
    cbn [fmap list_fmap a2b_base64_loop]. rewrite Ha1, Ha2.
    cbn [a2b_base64_loop]. rewrite Hb1, Hb2.
    destruct Hrest as [(Hc & Hd & Hl) | [(-> & Hc & Hd) | (-> & Hc & Hd)]].
    + destruct (base64_digit_byte c Hc) as (Hc1 & _ & vc & Hc2).
      destruct (base64_digit_byte d Hd) as (Hd1 & _ & vd & Hd2).
      cbn [a2b_base64_loop]. rewrite Hc1, Hc2.
      cbn [a2b_base64_loop]. rewrite Hd1, Hd2.
      apply IH; [simpl in Hn; lia | exact Hl].
    + destruct (base64_digit_byte c Hc) as (Hc1 & _ & vc & Hc2).
      destruct (pad_byte d Hd) as (Hd1 & _).
      cbn [a2b_base64_loop]. rewrite Hc1, Hc2.
      cbn [a2b_base64_loop fmap list_fmap]. rewrite Hd1.
      eexists; reflexivity.
    + destruct (pad_byte c Hc) as (Hc1 & _). destruct (pad_byte d Hd) as (Hd1 & _).
      cbn [a2b_base64_loop fmap list_fmap]. rewrite Hc1. simpl Nat.leb. cbv iota.
      cbn [a2b_base64_loop]. rewrite Hd1. eexists; reflexivity.
Qed.

Lemma valid_base64_quads_ascii (n : nat) (l : list ascii) :
  length l <= n ->
  valid_base64_quads l = true ->
  Forall (fun c => (N_of_ascii c < 128)%N) l.
Proof.
  revert l. induction n as [| n IH]; intros l Hn Hvalid.
  - destruct l; [constructor | simpl in Hn; lia].
  - destruct l as [| a [| b [| c [| d l]]]]; try discriminate; [constructor |].
    assert (Hd : forall x, is_base64_digit x = true -> (N_of_ascii x < 128)%N)
      by (intros x Hx; apply (base64_digit_byte x Hx)).
    assert (Hp : forall x, Ascii.eqb x "=" = true -> (N_of_ascii x < 128)%N)
      by (intros x Hx; apply (pad_byte x Hx)).
    destruct l as [| x l].
    + simpl in Hvalid.
      repeat match goal with
             | H : _ && _ = true |- _ => apply andb_prop in H as [? ?]
             | H : _ || _ = true |- _ => apply orb_prop in H as [? | ?]
             end; repeat constructor; auto.
    + change (valid_base64_quads (a :: b :: c :: d :: x :: l))
        with (is_base64_digit a && is_base64_digit b && is_base64_digit c
              && is_base64_digit d && valid_base64_quads (x :: l)) in Hvalid.
      repeat match goal with
             | H : _ && _ = true |- _ => apply andb_prop in H as [? ?]
             end.
      do 4 (constructor; [auto |]).
      apply IH; [simpl in Hn |- *; lia | assumption].
Qed.

Lemma bytes_from_decode_data_ascii (s : string) :
  Forall (fun c => (N_of_ascii c < 128)%N) (list_ascii_of_string s) ->
  _bytes_from_decode_data s = Ok (byte_of_ascii <$> list_ascii_of_string s).
Proof.
  induction s as [| c s IH]; simpl; intros H; [reflexivity |].
  inversion H as [| ? ? Hc Hs]; subst.
  apply N.ltb_lt in Hc. rewrite Hc, (IH Hs). reflexivity.
Qed.

Lemma b64decode_accepts_valid (s : string) :
  valid_base64 s = true -> exists decoded, b64decode s = Ok decoded.
Proof.
  intros Hvalid. unfold b64decode, valid_base64 in *.
  rewrite bytes_from_decode_data_ascii
    by (eapply valid_base64_quads_ascii; [reflexivity | exact Hvalid]).
  eapply a2b_base64_loop_accepts; [reflexivity | exact Hvalid].
Qed.

(** ** Packed integers *)

Lemma to_N_u8 (n : N) : (n < 256)%N -> Byte.to_N (u8 n) = n.
Proof.
  intros Hn. unfold u8.
  rewrite <- (N_ascii_embedding n Hn) at 2.
  apply Byte.to_of_N. symmetry. apply byte_of_ascii_via_N.
Qed.

Lemma struct_unpack_pack (n : N) :
  (n < 2 ^ 32)%N -> struct_unpack_I (struct_pack_I n) = Ok n.
Proof.
  intros Hn. change (2 ^ 32)%N with 4294967296%N in Hn.
  unfold struct_pack_I, bytes_of. simpl.
  rewrite !to_N_u8 by (apply N.mod_lt; discriminate).
  f_equal. zify. Z.to_euclidean_division_equations. lia.
Qed.

Lemma u32_at_skip (pre l : bytes) (pos k : nat) :
  pos = length pre + k -> u32_at (pre ++ l) pos = u32_at l k.
Proof.
  intros ->. unfold u32_at. rewrite drop_app_add'; reflexivity.
Qed.

Lemma u32_at_head (n : N) (post : bytes) :
  (n < 2 ^ 32)%N -> u32_at (struct_pack_I n ++ post) 0 = n.
Proof.
  intros Hn. unfold u32_at. rewrite drop_0.
  rewrite (take_app_length' (struct_pack_I n) post 4) by reflexivity.
  rewrite struct_unpack_pack by exact Hn. reflexivity.
Qed.

(** ** Rasters *)

Lemma length_chunks {A} (k n : nat) (l : list A) : length (chunks k n l) = n.
Proof. revert l. induction n as [| n IH]; intros l; simpl; [| rewrite IH]; reflexivity. Qed.

Lemma chunks_lookup {A} (k n : nat) (l : list A) (i : nat) :
  i < n -> chunks k n l !! i = Some (take k (drop (i * k) l)).
Proof.
  revert l i. induction n as [| n IH]; intros l [| i] Hi; simpl; try lia.
  - reflexivity.
  - rewrite IH by lia. rewrite drop_drop. reflexivity.
Qed.

Lemma chunks_length_each {A} (k n : nat) (l : list A) (c : list A) :
  n * k <= length l -> c ∈ chunks k n l -> length c = k.
Proof.
  revert l. induction n as [| n IH]; intros l Hlen Hin; simpl in Hin.
  - inversion Hin.
  - apply elem_of_cons in Hin as [-> | Hin].
    + rewrite length_take. lia.
    + apply (IH (drop k l)); [rewrite length_drop; lia | exact Hin].
Qed.

(** The raster of a buffer of the right size: [height] rows of [width]
    pixels of 4 values, the value [k] of pixel [j] of row [i] being the byte
    at offset [(i * width + j) * 4 + k]. *)
Lemma tolist_row_major (data : bytes) (height width : N) :
  N.of_nat (length data) = (height * width * 4)%N ->
  let rgba := mkarray (height, width, 4%N) data in
  length (tolist rgba) = N.to_nat height /\
  (forall row, row ∈ tolist rgba ->
     length row = N.to_nat width /\ forall pixel, pixel ∈ row -> length pixel = 4) /\
  (forall i j k, i < N.to_nat height -> j < N.to_nat width -> k < 4 ->
     exists row pixel,
       tolist rgba !! i = Some row /\ row !! j = Some pixel /\
       pixel !! k = ints_of data !! ((i * N.to_nat width + j) * 4 + k)).
Proof.
  intros Hlen rgba. unfold tolist, rgba. simpl shape. simpl buffer.
  change (N.to_nat 4) with 4.
  set (h := N.to_nat height) in *. set (w := N.to_nat width) in *.
  assert (Hints : length (ints_of data) = h * w * 4)
    by (unfold ints_of; rewrite length_fmap; lia).
  split; [rewrite length_fmap; apply length_chunks |].
  split.
  - intros row Hrow. apply list_elem_of_fmap in Hrow as (flat & -> & Hflat).
    split; [apply length_chunks |].
    intros pixel Hpixel.
    apply chunks_length_each in Hflat; [| lia].
    apply chunks_length_each in Hpixel; [exact Hpixel | lia].
  - intros i j k Hi Hj Hk.
    eexists _, _.
    split; [rewrite list_lookup_fmap, chunks_lookup by exact Hi; reflexivity |].
    split; [apply chunks_lookup; exact Hj |].
    rewrite lookup_take_lt by exact Hk.
    rewrite lookup_drop, lookup_take_lt by lia.
    rewrite lookup_drop. f_equal. lia.
Qed.

(** ** Dictionaries *)

Lemma assign_all_snoc (layers : layers_t) (entries : list (N * ndarray))
    (layer_id : N) (rgba : ndarray) :
  assign_all layers (entries ++ [(layer_id, rgba)])
  = <[layer_id := rgba]> (assign_all layers entries).
Proof. unfold assign_all. rewrite foldl_app. reflexivity. Qed.

Lemma assign_all_other (layers : layers_t) (entries : list (N * ndarray))
    (layer_id : N) :
  layer_id ∉ entries.*1 -> assign_all layers entries !! layer_id = layers !! layer_id.
Proof.
  revert layers. induction entries as [| [id rgba] entries IH]; intros layers Hnot.
  - reflexivity.
  - simpl in Hnot. apply not_elem_of_cons in Hnot as [Hne Hnot].
    unfold assign_all in *. simpl. rewrite IH by exact Hnot.
    apply lookup_insert_ne. congruence.
Qed.

(** After a sequence of assignments a key holds what was assigned to it
    last. *)
Lemma assign_all_last (layers : layers_t) (before after : list (N * ndarray))
    (layer_id : N) (rgba : ndarray) :
  layer_id ∉ after.*1 ->
  assign_all layers (before ++ (layer_id, rgba) :: after) !! layer_id = Some rgba.
Proof.
  intros Hnot. unfold assign_all. rewrite foldl_app. simpl.
  fold (assign_all (<[layer_id := rgba]> (foldl
          (fun layers entry => <[entry.1 := entry.2]> layers) layers before)) after).
  rewrite assign_all_other by exact Hnot. apply lookup_insert_eq.
Qed.

(** A dictionary has one entry for a key it holds. *)
Lemma entries_with_key (layers : layers_t) (layer_id : N) (rgba : ndarray) :
  layers !! layer_id = Some rgba ->
  filter (fun entry => entry.1 = layer_id) (map_to_list layers)
  = [(layer_id, rgba)].
Proof.
  intros Hl. apply Permutation_singleton_r.
  rewrite <- (map_to_list_delete layers layer_id rgba Hl).
  rewrite filter_cons_True by reflexivity.
  destruct (filter _ (map_to_list (delete layer_id layers)))
    as [| [id x] rest] eqn:Hf; [reflexivity |].
  assert (Hin : (id, x) ∈ filter (fun entry : N * ndarray => entry.1 = layer_id)
                  (map_to_list (delete layer_id layers)))
    by (rewrite Hf; left).
  apply list_elem_of_filter in Hin as [Hid Hin]. simpl in Hid. subst id.
  apply elem_of_map_to_list in Hin. rewrite lookup_delete_eq in Hin. discriminate.
Qed.

(** ** Readers look forward *)

Lemma forward_ret {A} (a : A) : forward (ret a).
Proof. intros buf1 buf2 H. simpl. split; [reflexivity | exact H]. Qed.

Lemma forward_raise {A} (e : exn) : forward (@raise A e).
Proof. intros buf1 buf2 H. reflexivity. Qed.

Lemma forward_lift {A} (r : result A) : forward (lift r).
Proof.
  intros buf1 buf2 H. unfold lift. destruct r; simpl;
    [split; [reflexivity | exact H] | reflexivity].
Qed.

Lemma forward_bind {A B} (m : M A) (k : A -> M B) :
  forward m -> (forall a, forward (k a)) -> forward (bind m k).
Proof.
  intros Hm Hk buf1 buf2 H. unfold bind. specialize (Hm buf1 buf2 H).
  destruct (m buf1) as [[a1 buf1'] |], (m buf2) as [[a2 buf2'] |];
    simpl in Hm; try contradiction.
  - destruct Hm as [-> Hm]. apply Hk, Hm.
  - subst. reflexivity.
Qed.

Lemma forward_read (size : Z) : forward (read size).
Proof.
  intros [d1 t1] [d2 t2] (Htell & Hlen & Hrest). simpl in Htell, Hlen, Hrest.
  subst t2. unfold read, BytesIO_read, remaining. simpl.
  rewrite <- Hlen, <- Hrest.
  split; [reflexivity |].
  split; [reflexivity |]. split; [exact Hlen |]. simpl.
  rewrite <- !drop_drop, Hrest. reflexivity.
Qed.

Lemma forward_readint : forward _readint.
Proof.
  unfold _readint. apply forward_bind; [apply forward_read |].
  intros b. apply forward_lift.
Qed.

Section Decoder_claims.

Variable zstd_decompress : bytes -> string + bytes.

(** ** Blocks *)

(** C2: when the payload of the block at the cursor decompresses to a
    number of bytes other than the [uncompressed_size] the block declares,
    [_read_block] raises the size mismatch, and so does [read_blueprint]:
    the decode returns no mapping at all, with or without that layer. *)
Theorem decompressed_size_mismatch_aborts (s : string) (version : list N)
    (width height : N) (layers : layers_t) (buf buf' : BytesIO)
    (block_size layer_id uncompressed_size : N)
    (compressed_payload decompressed : bytes) :
  decoding zstd_decompress s version width height layers buf ->
  tell buf < length (getvalue buf) ->
  block_fields buf
  = Ok ((block_size, layer_id, uncompressed_size, compressed_payload), buf') ->
  zstd_decompress compressed_payload = inr decompressed ->
  N.of_nat (length decompressed) <> uncompressed_size ->
  let e := ValueError_decompressed_size uncompressed_size
             (length compressed_payload) in
  _read_block zstd_decompress buf = Raise e /\
  read_blueprint zstd_decompress s = Raise e /\
  fails_with (read_blueprint zstd_decompress s) SizeMismatchError.
Proof.
  intros Hdec Hlt Hfields Hz Hne e.
  assert (Hblock : _read_block zstd_decompress buf = Raise e).
  { rewrite read_block_fields, Hfields, Hz.
    destruct (N.eqb_spec (N.of_nat (length decompressed)) uncompressed_size);
      [contradiction | reflexivity]. }
  assert (Hres : read_blueprint zstd_decompress s = Raise e).
  { rewrite (decoding_result _ _ _ _ _ _ _ Hdec).
    rewrite read_blocks_unfold by lia.
    apply Nat.ltb_lt in Hlt. rewrite Hlt, read_layer_eq, Hblock. reflexivity. }
  split; [exact Hblock |]. split; [exact Hres |].
  exists e. split; [exact Hres | reflexivity].
Qed.

(** C5, amended: when a new block is expected and fewer than 12 bytes are
    left for its header triple, the decode fails with TruncatedInputError
    ([struct.error]). *)
Theorem truncated_block_header (s : string) (version : list N)
    (width height : N) (layers : layers_t) (buf : BytesIO) :
  decoding zstd_decompress s version width height layers buf ->
  tell buf < length (getvalue buf) ->
  remaining buf < 12 ->
  read_blueprint zstd_decompress s = Raise struct_error /\
  fails_with (read_blueprint zstd_decompress s) TruncatedInputError.
Proof.
  intros Hdec Hlt Hrem.
  assert (Hres : read_blueprint zstd_decompress s = Raise struct_error).
  { rewrite (decoding_result _ _ _ _ _ _ _ Hdec).
    rewrite read_blocks_unfold by lia.
    apply Nat.ltb_lt in Hlt.
    rewrite Hlt, read_layer_eq, read_block_fields, block_fields_eq.
    destruct (Nat.leb_spec 12 (remaining buf)); [lia | reflexivity]. }
  split; [exact Hres |]. exists struct_error. split; [exact Hres | reflexivity].
Qed.

(** C6, amended: when the header triple of a block was read and fewer than
    [block_size - 12] bytes are left, the read is short: the bytes that are
    left are the payload, and the outcome of the decode is that of
    decompressing them, checking the size and assembling the layer, as for
    a last block.  It is not a TruncatedInputError. *)
Theorem short_payload_is_read_short (s : string) (version : list N)
    (width height : N) (layers : layers_t) (buf : BytesIO) :
  decoding zstd_decompress s version width height layers buf ->
  tell buf < length (getvalue buf) ->
  12 <= remaining buf ->
  (Z.of_nat (remaining buf - 12)
   < Z.of_N (u32_at (getvalue buf) (tell buf)) - 12)%Z ->
  let layer_id := u32_at (getvalue buf) (tell buf + 4) in
  let uncompressed_size := u32_at (getvalue buf) (tell buf + 8) in
  let compressed_payload := drop (tell buf + 12) (getvalue buf) in
  read_blueprint zstd_decompress s
  = match zstd_decompress compressed_payload with
    | inl msg => Raise (zstd_Error msg)
    | inr decompressed =>
        if (N.of_nat (length decompressed) =? uncompressed_size)%N
        then
          match frombuffer_reshape decompressed height width with
          | Ok rgba => Ok (version, <[layer_id := rgba]> layers)
          | Raise e => Raise e
          end
        else Raise (ValueError_decompressed_size uncompressed_size
                      (length compressed_payload))
    end
  /\ ~ fails_with (read_blueprint zstd_decompress s) TruncatedInputError.
Proof.
  intros Hdec Hlt Hrem Hshort layer_id uncompressed_size compressed_payload.
  assert (Hres : read_blueprint zstd_decompress s
    = match zstd_decompress compressed_payload with
      | inl msg => Raise (zstd_Error msg)
      | inr decompressed =>
          if (N.of_nat (length decompressed) =? uncompressed_size)%N
          then
            match frombuffer_reshape decompressed height width with
            | Ok rgba => Ok (version, <[layer_id := rgba]> layers)
            | Raise e => Raise e
            end
          else Raise (ValueError_decompressed_size uncompressed_size
                        (length compressed_payload))
      end).
  { rewrite (decoding_result _ _ _ _ _ _ _ Hdec).
    rewrite read_blocks_unfold by lia.
    pose proof Hlt as Hlt'. apply Nat.ltb_lt in Hlt'.
    rewrite Hlt', read_layer_eq, read_block_fields, block_fields_eq.
    destruct (Nat.leb_spec 12 (remaining buf)); [| lia]. cbv zeta.
    rewrite BytesIO_read_short by (rewrite remaining_advance; exact Hshort).
    cbn [advance getvalue tell].
    fold layer_id uncompressed_size compressed_payload.
    destruct (zstd_decompress compressed_payload) as [msg | u]; [reflexivity |].
    destruct (N.of_nat (length u) =? uncompressed_size)%N; [| reflexivity].
    destruct (frombuffer_reshape u height width) as [rgba |]; [| reflexivity].
    rewrite read_blocks_end; [reflexivity |].
    unfold remaining in *. simpl. lia. }
  split; [exact Hres |].
  intros (e & He & Hk). rewrite Hres in He.
  destruct (zstd_decompress compressed_payload) as [msg | u].
  - injection He as <-. discriminate.
  - destruct (N.of_nat (length u) =? uncompressed_size)%N.
    + unfold frombuffer_reshape in He.
      destruct (_ =? _)%N in He; [discriminate |].
      injection He as <-. discriminate.
    + injection He as <-. discriminate.
Qed.

(** C7: for a block that was read, the layer is assembled exactly when the
    decompressed payload has [width * height * 4] bytes.  With any other
    length numpy refuses the shape and the decode fails with
    SizeMismatchError; with that length the bytes become, unchanged, a
    raster of shape [(height, width, 4)] in row-major order. *)
Theorem layer_assembly_checks_size (s : string) (version : list N)
    (width height : N) (layers : layers_t) (buf buf' : BytesIO)
    (layer_id : N) (decompressed : bytes) :
  decoding zstd_decompress s version width height layers buf ->
  tell buf < length (getvalue buf) ->
  _read_block zstd_decompress buf = Ok ((layer_id, decompressed), buf') ->
  (N.of_nat (length decompressed) <> (width * height * 4)%N ->
   let e := ValueError_reshape (length decompressed) (height, width, 4%N) in
   read_layer zstd_decompress width height layers buf = Raise e /\
   read_blueprint zstd_decompress s = Raise e /\
   fails_with (read_blueprint zstd_decompress s) SizeMismatchError) /\
  (N.of_nat (length decompressed) = (width * height * 4)%N ->
   let rgba := mkarray (height, width, 4%N) decompressed in
   read_layer zstd_decompress width height layers buf
   = Ok (<[layer_id := rgba]> layers, buf') /\
   length (tolist rgba) = N.to_nat height /\
   (forall row, row ∈ tolist rgba ->
      length row = N.to_nat width /\
      forall pixel, pixel ∈ row -> length pixel = 4) /\
   (forall i j k, i < N.to_nat height -> j < N.to_nat width -> k < 4 ->
      exists row pixel,
        tolist rgba !! i = Some row /\ row !! j = Some pixel /\
        pixel !! k
        = ints_of decompressed !! ((i * N.to_nat width + j) * 4 + k))).
Proof.
  intros Hdec Hlt Hblock. split.
  - intros Hne e.
    assert (Hlayer : read_layer zstd_decompress width height layers buf = Raise e).
    { rewrite read_layer_eq, Hblock. unfold frombuffer_reshape.
      destruct (N.eqb_spec (N.of_nat (length decompressed)) (height * width * 4));
        [lia | reflexivity]. }
    assert (Hres : read_blueprint zstd_decompress s = Raise e).
    { rewrite (decoding_result _ _ _ _ _ _ _ Hdec).
      rewrite read_blocks_unfold by lia.
      apply Nat.ltb_lt in Hlt. rewrite Hlt, Hlayer. reflexivity. }
    split; [exact Hlayer |]. split; [exact Hres |].
    exists e. split; [exact Hres | reflexivity].
  - intros Heq rgba. split.
    + rewrite read_layer_eq, Hblock. unfold frombuffer_reshape.
      destruct (N.eqb_spec (N.of_nat (length decompressed)) (height * width * 4));
        [reflexivity | lia].
    + apply tolist_row_major. lia.
Qed.

(** ** Whole blueprints *)

(** C10: when the envelope is well formed and the decoded bytes are the 17
    bytes of a header and nothing else, [read_blueprint] returns the version
    of the header and an empty mapping. *)
Theorem header_only_blueprint (s : string) (decoded : bytes) :
  40 <= String.length s ->
  str_upto 4 s = "VCB+"%string ->
  b64decode (str_from 4 s) = Ok decoded ->
  length decoded = 17 ->
  read_blueprint zstd_decompress s = Ok (ints_of (take 3 decoded), ∅).
Proof.
  intros Hlen Hid Hd H17.
  unfold read_blueprint.
  destruct (Nat.ltb_spec (String.length s) 40); [lia |].
  rewrite Hid. simpl negb. cbv iota. rewrite Hd.
  unfold read_container, bind, ret. rewrite read_header_eq.
  assert (Hrem : remaining (BytesIO_new decoded) = 17)
    by (unfold remaining; simpl; lia).
  rewrite Hrem. simpl Nat.leb. cbv beta iota.
  rewrite read_blocks_end; [simpl; rewrite drop_0; reflexivity |].
  simpl. lia.
Qed.

(** A blueprint cut inside its header: the failure of the header read is the
    failure of the decode. *)
Lemma truncated_header_blueprint (s : string) (decoded : bytes) :
  40 <= String.length s ->
  str_upto 4 s = "VCB+"%string ->
  b64decode (str_from 4 s) = Ok decoded ->
  length decoded < 17 ->
  read_blueprint zstd_decompress s = Raise struct_error.
Proof.
  intros Hlen Hid Hd Hshort. unfold read_blueprint.
  destruct (Nat.ltb_spec (String.length s) 40); [lia |].
  rewrite Hid. simpl negb. cbv iota. rewrite Hd.
  unfold read_container, bind. rewrite read_header_eq.
  assert (Hrem : remaining (BytesIO_new decoded) = length decoded)
    by (unfold remaining; simpl; lia).
  rewrite Hrem.
  destruct (Nat.leb_spec 17 (length decoded)); [lia | reflexivity].
Qed.

(** C1: a blueprint whose header declares width 2 and height 1 and whose one
    block has layer id 7, a block size and an uncompressed size that fit its
    payload, and a payload that decompresses to the 8 bytes
    [255,0,0,255,0,255,0,255], decodes to a mapping with the raster
    [[[255,0,0,255],[0,255,0,255]]] at key 7. *)
Theorem example_blueprint (s : string) (version checksum payload : bytes) :
  40 <= String.length s ->
  str_upto 4 s = "VCB+"%string ->
  length version = 3 ->
  length checksum = 6 ->
  (12 + N.of_nat (length payload) < 2 ^ 32)%N ->
  b64decode (str_from 4 s)
  = Ok (version ++ checksum ++ struct_pack_I 2 ++ struct_pack_I 1
        ++ struct_pack_I (12 + N.of_nat (length payload))
        ++ struct_pack_I 7 ++ struct_pack_I 8 ++ payload) ->
  zstd_decompress payload = inr (bytes_of [255; 0; 0; 255; 0; 255; 0; 255]%N) ->
  exists layers,
    read_blueprint zstd_decompress s = Ok (ints_of version, layers) /\
    shape <$> layers !! 7%N = Some (1, 2, 4)%N /\
    tolist <$> layers !! 7%N
    = Some [[[255; 0; 0; 255]; [0; 255; 0; 255]]]%N /\
    dom layers = {[7%N]}.
Proof.
  intros Hlen Hid Hv Hc Hsize Hd Hz.
  set (data := version ++ _) in Hd.
  assert (Hdata : length data = 29 + length payload).
  { unfold data. rewrite !length_app, Hv, Hc. simpl. lia. }
  assert (Hw : u32_at data 9 = 2%N).
  { unfold data. rewrite (u32_at_skip version _ 9 6) by lia.
    rewrite (u32_at_skip checksum _ 6 0) by lia. apply u32_at_head. reflexivity. }
  assert (Hh : u32_at data 13 = 1%N).
  { unfold data. rewrite (u32_at_skip version _ 13 10) by lia.
    rewrite (u32_at_skip checksum _ 10 4) by lia.
    rewrite (u32_at_skip (struct_pack_I 2) _ 4 0) by reflexivity.
    apply u32_at_head. reflexivity. }
  assert (Hbs : u32_at data 17 = (12 + N.of_nat (length payload))%N).
  { unfold data. rewrite (u32_at_skip version _ 17 14) by lia.
    rewrite (u32_at_skip checksum _ 14 8) by lia.
    rewrite (u32_at_skip (struct_pack_I 2) _ 8 4) by reflexivity.
    rewrite (u32_at_skip (struct_pack_I 1) _ 4 0) by reflexivity.
    apply u32_at_head. exact Hsize. }
  assert (Hid7 : u32_at data 21 = 7%N).
  { unfold data. rewrite (u32_at_skip version _ 21 18) by lia.
    rewrite (u32_at_skip checksum _ 18 12) by lia.
    rewrite (u32_at_skip (struct_pack_I 2) _ 12 8) by reflexivity.
    rewrite (u32_at_skip (struct_pack_I 1) _ 8 4) by reflexivity.
    rewrite (u32_at_skip (struct_pack_I _) _ 4 0) by reflexivity.
    apply u32_at_head. reflexivity. }
  assert (Hsz : u32_at data 25 = 8%N).
  { unfold data. rewrite (u32_at_skip version _ 25 22) by lia.
    rewrite (u32_at_skip checksum _ 22 16) by lia.
    rewrite (u32_at_skip (struct_pack_I 2) _ 16 12) by reflexivity.
    rewrite (u32_at_skip (struct_pack_I 1) _ 12 8) by reflexivity.
    rewrite (u32_at_skip (struct_pack_I _) _ 8 4) by reflexivity.
    rewrite (u32_at_skip (struct_pack_I 7) _ 4 0) by reflexivity.
    apply u32_at_head. reflexivity. }
  assert (Hpayload : drop 29 data = payload).
  { unfold data. rewrite !app_assoc. apply drop_app_length'.
    rewrite !length_app, Hv, Hc. reflexivity. }
  assert (Hversion : take 3 data = version).
  { unfold data. apply take_app_length'. symmetry. exact Hv. }
  exists {[7%N := mkarray (1%N, 2%N, 4%N)
                   (bytes_of [255; 0; 0; 255; 0; 255; 0; 255]%N)]}.
  split; [| split; [reflexivity | split; [reflexivity | apply dom_singleton_L]]].
  assert (Hstate : decoding zstd_decompress s (ints_of version) 2 1 ∅
                     (mkBytesIO data 17)).
  { split; [exact Hlen |]. split; [exact Hid |].
    exists data, (take 6 (drop 3 data)), (mkBytesIO data 17).
    split; [exact Hd |]. split; [| constructor].
    rewrite read_header_eq.
    assert (Hrem : remaining (BytesIO_new data) = 29 + length payload)
      by (unfold remaining; simpl; lia).
    rewrite Hrem. simpl Nat.leb. cbv iota.
    simpl. rewrite drop_0, Hversion, Hw, Hh. reflexivity. }
  rewrite (decoding_result _ _ _ _ _ _ _ Hstate).
  rewrite read_blocks_unfold by lia.
  destruct (Nat.ltb_spec (tell (mkBytesIO data 17))
              (length (getvalue (mkBytesIO data 17)))); [| simpl in *; lia].
  rewrite read_layer_eq, read_block_fields, block_fields_eq.
  assert (Hrem : remaining (mkBytesIO data 17) = 12 + length payload)
    by (unfold remaining; simpl; lia).
  rewrite Hrem. simpl Nat.leb. cbv iota zeta.
  cbn [getvalue tell]. rewrite Hbs.
  replace (Z.of_N (12 + N.of_nat (length payload)) - 12)%Z
    with (Z.of_nat (length payload)) by lia.
  rewrite BytesIO_read_nat. cbn [advance getvalue tell].
  change (17 + 12) with 29. rewrite Hpayload.
  rewrite take_ge by lia. rewrite Hz.
  change (17 + 4) with 21. change (17 + 8) with 25. rewrite Hid7, Hsz.
  simpl N.eqb. cbv iota.
  unfold frombuffer_reshape. simpl N.eqb. cbv iota.
  rewrite read_blocks_end; [reflexivity |].
  unfold remaining. simpl. lia.
Qed.

(** C8: in a successful decode, a layer id that occurs in the stream of
    blocks, whatever the number of blocks that carry it, has exactly one
    entry in the mapping, and the entry holds the raster of the last of
    these blocks. *)
Theorem repeated_layer_id_keeps_last (s : string) (version : list N)
    (layers : layers_t) :
  read_blueprint zstd_decompress s = Ok (version, layers) ->
  exists entries,
    blueprint_blocks zstd_decompress s = Ok entries /\
    forall layer_id before raster after,
      entries = before ++ (layer_id, raster) :: after ->
      layer_id ∉ after.*1 ->
      layers !! layer_id = Some raster /\
      filter (fun entry => entry.1 = layer_id) (map_to_list layers)
      = [(layer_id, raster)].
Proof.
  intros Hres.
  destruct (read_blueprint_stream _ _ _ _ Hres) as (entries & Hstream & ->).
  exists entries. split; [exact Hstream |].
  intros layer_id before raster after -> Hlast.
  assert (Hl : assign_all ∅ (before ++ (layer_id, raster) :: after) !! layer_id
               = Some raster) by (apply assign_all_last; exact Hlast).
  split; [exact Hl | apply entries_with_key; exact Hl].
Qed.

Lemma forward_read_block : forward (_read_block zstd_decompress).
Proof.
  unfold _read_block.
  apply forward_bind; [apply forward_readint | intros block_size].
  apply forward_bind; [apply forward_readint | intros layer_id].
  apply forward_bind; [apply forward_readint | intros buffer_size].
  apply forward_bind; [apply forward_read | intros compressed_data].
  apply forward_bind; [apply forward_lift | intros uncompressed_data].
  destruct (negb _); [apply forward_raise | apply forward_ret].
Qed.

Lemma forward_read_layer (width height : N) (layers : layers_t) :
  forward (read_layer zstd_decompress width height layers).
Proof.
  unfold read_layer.
  apply forward_bind; [apply forward_read_block | intros [layer_id data]].
  apply forward_bind; [apply forward_lift | intros rgba].
  apply forward_ret.
Qed.

Lemma forward_read_blocks (fuel : nat) (width height : N) (layers : layers_t) :
  forward (read_blocks zstd_decompress fuel width height layers).
Proof.
  revert layers. induction fuel as [| fuel IH]; intros layers buf1 buf2 H.
  - simpl. split; [reflexivity | exact H].
  - simpl. destruct H as (Htell & Hlen & Hrest). rewrite <- Htell, <- Hlen.
    destruct (tell buf1 <? length (getvalue buf1)).
    + apply forward_bind; [apply forward_read_layer | intros a; apply IH |].
      split; [exact Htell |]. split; [exact Hlen | exact Hrest].
    + simpl. split; [reflexivity |].
      split; [exact Htell |]. split; [exact Hlen | exact Hrest].
Qed.

(** Decoded bytes that differ in the checksum only give the same result. *)
Lemma read_container_checksum (d1 d2 : bytes) :
  length d1 = length d2 ->
  take 3 d1 = take 3 d2 ->
  drop 9 d1 = drop 9 d2 ->
  read_container zstd_decompress d1 = read_container zstd_decompress d2.
Proof.
  intros Hlen Hversion Hrest.
  unfold read_container, _read_header.
  set (tail := fun version : bytes =>
    let* width := _readint in
    let* height := _readint in
    let* layers := read_blocks zstd_decompress (length d1) width height ∅ in
    ret (ints_of version, layers)).
  assert (Htail : forall version, forward (tail version)).
  { intros version. unfold tail.
    apply forward_bind; [apply forward_readint | intros width].
    apply forward_bind; [apply forward_readint | intros height].
    apply forward_bind; [apply forward_read_blocks | intros layers].
    apply forward_ret. }
  assert (Hsplit : forall d, length d = length d1 ->
    (let* (version, checksum, width, height) :=
       (let* version := read 3 in
        let* checksum := read 6 in
        let* width := _readint in
        let* height := _readint in
        ret (ints_of version, checksum, width, height)) in
     let* layers := read_blocks zstd_decompress (length d) width height ∅ in
     ret (version, layers)) (BytesIO_new d)
    = tail (take 3 d)
        (mkBytesIO d (3 `min` length d + 6 `min` (length d - 3 `min` length d)))).
  { intros d Hd. unfold tail, bind, ret.
    change 3%Z with (Z.of_nat 3). change 6%Z with (Z.of_nat 6).
    rewrite !read_eq. unfold advance, remaining, BytesIO_new. simpl.
    rewrite drop_0, Nat.sub_0_r, Hd.
    destruct (_readint _) as [[width buf1] |]; [| reflexivity].
    destruct (_readint buf1) as [[height buf2] |]; [| reflexivity].
    destruct (read_blocks _ _ _ _ _ _) as [[layers buf3] |]; reflexivity. }
  rewrite (Hsplit d1 eq_refl), (Hsplit d2 (eq_sym Hlen)).
  rewrite <- Hversion, <- Hlen.
  set (pos := 3 `min` length d1 + 6 `min` (length d1 - 3 `min` length d1)).
  assert (Hsame : same_rest (mkBytesIO d1 pos) (mkBytesIO d2 pos)).
  { split; [reflexivity |]. split; [exact Hlen |]. simpl.
    destruct (Nat.le_gt_cases 9 (length d1)) as [Hge | Hlt].
    - replace pos with 9 by (unfold pos; lia). exact Hrest.
    - rewrite !drop_ge by (unfold pos; lia). reflexivity. }
  specialize (Htail (take 3 d1) _ _ Hsame).
  destruct (tail (take 3 d1) (mkBytesIO d1 pos)) as [[r1 buf1] |],
           (tail (take 3 d1) (mkBytesIO d2 pos)) as [[r2 buf2] |];
    simpl in Htail; try contradiction.
  - destruct Htail as [-> _]. reflexivity.
  - subst. reflexivity.
Qed.

(** C9: two strings that pass or fail the checks of the envelope alike and
    whose decoded bytes have the same length, the same first 3 bytes and the
    same bytes from offset 9 on, that is, differ at most in the 6 checksum
    bytes, make [read_blueprint] raise the same exception or return the same
    version and layers. *)
Theorem checksum_is_ignored (s1 s2 : string) (decoded1 decoded2 : bytes) :
  (String.length s1 <? 40) = (String.length s2 <? 40) ->
  str_upto 4 s1 = str_upto 4 s2 ->
  b64decode (str_from 4 s1) = Ok decoded1 ->
  b64decode (str_from 4 s2) = Ok decoded2 ->
  length decoded1 = length decoded2 ->
  take 3 decoded1 = take 3 decoded2 ->
  drop 9 decoded1 = drop 9 decoded2 ->
  read_blueprint zstd_decompress s1 = read_blueprint zstd_decompress s2.
Proof.
  intros Hshort Hid Hd1 Hd2 Hlen Hversion Hrest.
  unfold read_blueprint. rewrite Hshort, Hid, Hd1, Hd2.
  rewrite (read_container_checksum _ _ Hlen Hversion Hrest). reflexivity.
Qed.

(** ** The envelope *)

(** Past the envelope no exception is a FormatError. *)
Lemma read_layer_raises (width height : N) (layers : layers_t)
    (buf : BytesIO) (e : exn) :
  read_layer zstd_decompress width height layers buf = Raise e ->
  kind_of e <> FormatError.
Proof.
  rewrite read_layer_eq, read_block_fields, block_fields_eq.
  destruct (12 <=? remaining buf); [| intros [= <-]; discriminate].
  cbv zeta. destruct (BytesIO_read _ _) as [c buf'].
  destruct (zstd_decompress c) as [msg | u]; [intros [= <-]; discriminate |].
  destruct (_ =? _)%N; [| intros [= <-]; discriminate].
  unfold frombuffer_reshape.
  destruct (_ =? _)%N; [discriminate | intros [= <-]; discriminate].
Qed.

Lemma read_blocks_raises (fuel : nat) (width height : N) (layers : layers_t)
    (buf : BytesIO) (e : exn) :
  read_blocks zstd_decompress fuel width height layers buf = Raise e ->
  kind_of e <> FormatError.
Proof.
  revert layers buf. induction fuel as [| fuel IH]; intros layers buf; simpl;
    [discriminate |].
  destruct (tell buf <? length (getvalue buf)); [| discriminate].
  unfold bind.
  destruct (read_layer zstd_decompress width height layers buf)
    as [[layers' buf'] |] eqn:Hl.
  - apply IH.
  - intros [= <-]. eapply read_layer_raises, Hl.
Qed.

Lemma read_container_raises (decoded : bytes) (e : exn) :
  read_container zstd_decompress decoded = Raise e ->
  kind_of e <> FormatError.
Proof.
  unfold read_container, bind, ret. rewrite read_header_eq.
  destruct (17 <=? remaining (BytesIO_new decoded));
    [| intros [= <-]; discriminate].
  destruct (read_blocks _ _ _ _ _ _) as [[layers buf] |] eqn:Hb;
    [discriminate |].
  intros [= <-]. eapply read_blocks_raises, Hb.
Qed.

(** C3, amended: [read_blueprint] fails with FormatError exactly when the
    string has fewer than 40 characters, or its first 4 characters are not
    "VCB+", or [base64.b64decode] rejects the characters from index 4 on;
    the exception is then the decoder's own.  The decoder rejects no string
    that is valid base64, and it skips characters outside the alphabet
    instead of rejecting them. *)
Theorem format_error_iff_envelope_rejected (s : string) :
  (fails_with (read_blueprint zstd_decompress s) FormatError <->
   String.length s < 40 \/ str_upto 4 s <> "VCB+"%string \/
   exists e, b64decode (str_from 4 s) = Raise e) /\
  (forall e,
     40 <= String.length s -> str_upto 4 s = "VCB+"%string ->
     b64decode (str_from 4 s) = Raise e ->
     read_blueprint zstd_decompress s = Raise e) /\
  (valid_base64 (str_from 4 s) = true ->
   exists decoded, b64decode (str_from 4 s) = Ok decoded) /\
  (forall c data quad_pos leftchar pads bin_data,
     Byte.to_N c <> BASE64_PAD ->
     table_a2b_base64 (Byte.to_N c) = None ->
     a2b_base64_loop (c :: data) quad_pos leftchar pads bin_data
     = a2b_base64_loop data quad_pos leftchar pads bin_data).
Proof.
  split; [| split; [| split; [apply b64decode_accepts_valid
                             | apply a2b_base64_loop_skip]]].
  - unfold read_blueprint.
    destruct (Nat.ltb_spec (String.length s) 40) as [Hshort | Hlong].
    { split; [intros _; left; exact Hshort |].
      intros _. exists ValueError_too_short. split; reflexivity. }
    destruct (String.eqb_spec (str_upto 4 s) "VCB+") as [Hid | Hid]; simpl negb;
      cbv iota.
    2: { split; [intros _; right; left; exact Hid |].
         intros _. eexists. split; reflexivity. }
    destruct (b64decode (str_from 4 s)) as [decoded | e] eqn:Hd.
    + split.
      * intros (e & He & Hk). apply read_container_raises in He. contradiction.
      * intros [H | [H | [e H]]]; [lia | contradiction | discriminate].
    + split; [intros _; right; right; exists e; reflexivity |].
      intros _. exists e. split; [reflexivity |].
      eapply b64decode_raises, Hd.
  - intros e Hlen Hid Hd. unfold read_blueprint.
    destruct (Nat.ltb_spec (String.length s) 40); [lia |].
    rewrite Hid, Hd. reflexivity.
Qed.

End Decoder_claims.

(** * The decoder on the examples *)

Local Open Scope N_scope.

Example b64decode_example : b64decode (str_from 4 example_string) = Ok example_bytes.
Proof. vm_compute. reflexivity. Qed.

Example cut_header_fails :
  read_blueprint zstd_stored cut_header_string = Raise struct_error.
Proof. vm_compute. reflexivity. Qed.

Example two_blocks_decode :
  blueprint_blocks zstd_stored two_blocks_string
  = Ok [(7, mkarray (1, 2, 4) (bytes_of [1; 2; 3; 4; 5; 6; 7; 8]));
        (7, mkarray (1, 2, 4) pixels)]
  /\ listing (read_blueprint zstd_stored two_blocks_string)
     = Ok ([1; 2; 3], [(7, [[[255; 0; 0; 255]; [0; 255; 0; 255]]])]).
Proof. vm_compute. split; reflexivity. Qed.

Example b64decode_stops_at_padding :
  b64decode "YQ==YQ==" = Ok (bytes_of [97])
  /\ b64decode "Y=Q==" = Ok (bytes_of [97])
  /\ b64decode "YWJj=" = Ok (bytes_of [97; 98; 99])
  /\ b64decode "YQ=" = Raise (binascii_Error Incorrect_padding)
  /\ b64decode "YWJjZ" = Raise (binascii_Error (Invalid_length 5)).
Proof. vm_compute. repeat split. Qed.

(** [read_blueprint] on [s] is at the first test of its loop. *)
Ltac at_first_block decoded :=
  split; [vm_compute; lia |];
  split; [reflexivity |];
  exists decoded, (bytes_of checksum_a), (mkBytesIO decoded 17);
  split; [vm_compute; reflexivity |];
  split; [vm_compute; reflexivity | constructor].

Lemma read_header_witness :
  _read_header (BytesIO_new (take 16 example_bytes)) = Raise struct_error /\
  _read_header (BytesIO_new example_bytes)
  = Ok (([1; 2; 3], bytes_of checksum_a, 2, 1), mkBytesIO example_bytes 17).
Proof.
  split.
  - apply (proj1 (read_header_truncated_or_17_bytes (take 16 example_bytes))).
    vm_compute. lia.
  - destruct (proj2 (read_header_truncated_or_17_bytes example_bytes))
      as (version & checksum & width & height & Heq & -> & _ & -> & _ & -> & -> & _).
    + vm_compute. lia.
    + rewrite Heq. vm_compute. reflexivity.
Defined.

Lemma example_blueprint_witness :
  exists layers,
    read_blueprint zstd_stored example_string = Ok ([1; 2; 3], layers) /\
    shape <$> layers !! 7 = Some (1, 2, 4) /\
    tolist <$> layers !! 7 = Some [[[255; 0; 0; 255]; [0; 255; 0; 255]]] /\
    dom layers = {[7]}.
Proof.
  apply (example_blueprint zstd_stored example_string
           (bytes_of [1; 2; 3]) (bytes_of checksum_a) (stored_frame pixels)).
  - vm_compute. lia.
  - reflexivity.
  - reflexivity.
  - reflexivity.
  - reflexivity.
  - vm_compute. reflexivity.
  - vm_compute. reflexivity.
Defined.

Lemma decompressed_size_mismatch_witness :
  _read_block zstd_stored (mkBytesIO size_9_bytes 17)
  = Raise (ValueError_decompressed_size 9 17) /\
  read_blueprint zstd_stored size_9_string
  = Raise (ValueError_decompressed_size 9 17) /\
  fails_with (read_blueprint zstd_stored size_9_string) SizeMismatchError.
Proof.
  apply (decompressed_size_mismatch_aborts zstd_stored size_9_string [1; 2; 3] 2 1 ∅
           (mkBytesIO size_9_bytes 17) (mkBytesIO size_9_bytes 46)
           29 7 9 (stored_frame pixels) pixels).
  - at_first_block size_9_bytes.
  - vm_compute. lia.
  - vm_compute. reflexivity.
  - vm_compute. reflexivity.
  - vm_compute. discriminate.
Defined.

Lemma truncated_block_header_witness :
  read_blueprint zstd_stored cut_block_string = Raise struct_error /\
  fails_with (read_blueprint zstd_stored cut_block_string) TruncatedInputError.
Proof.
  apply (truncated_block_header zstd_stored cut_block_string [1; 2; 3] 2 1 ∅
           (mkBytesIO cut_block_bytes 17)).
  - at_first_block cut_block_bytes.
  - vm_compute. lia.
  - vm_compute. lia.
Defined.

Lemma short_payload_witness :
  listing (read_blueprint zstd_stored block_size_1000_string)
  = Ok ([1; 2; 3], [(7, [[[255; 0; 0; 255]; [0; 255; 0; 255]]])]) /\
  ~ fails_with (read_blueprint zstd_stored block_size_1000_string)
      TruncatedInputError.
Proof.
  destruct (short_payload_is_read_short zstd_stored block_size_1000_string
              [1; 2; 3] 2 1 ∅ (mkBytesIO block_size_1000_bytes 17))
    as [Hres Hnot].
  - at_first_block block_size_1000_bytes.
  - vm_compute. lia.
  - vm_compute. lia.
  - vm_compute. reflexivity.
  - split; [rewrite Hres; vm_compute; reflexivity | exact Hnot].
Defined.

Lemma layer_assembly_witness :
  read_blueprint zstd_stored width_3_string
  = Raise (ValueError_reshape 8 (1, 3, 4)) /\
  read_layer zstd_stored 2 1 ∅ (mkBytesIO example_bytes 17)
  = Ok (<[7 := mkarray (1, 2, 4) pixels]> ∅, mkBytesIO example_bytes 46).
Proof.
  split.
  - apply (proj1 (layer_assembly_checks_size zstd_stored width_3_string
                    [1; 2; 3] 3 1 ∅ (mkBytesIO width_3_bytes 17)
                    (mkBytesIO width_3_bytes 46) 7 pixels
                    ltac:(at_first_block width_3_bytes)
                    ltac:(vm_compute; lia)
                    ltac:(vm_compute; reflexivity))).
    vm_compute. discriminate.
  - apply (proj2 (layer_assembly_checks_size zstd_stored example_string
                    [1; 2; 3] 2 1 ∅ (mkBytesIO example_bytes 17)
                    (mkBytesIO example_bytes 46) 7 pixels
                    ltac:(at_first_block example_bytes)
                    ltac:(vm_compute; lia)
                    ltac:(vm_compute; reflexivity))).
    vm_compute. reflexivity.
Defined.

Lemma repeated_layer_id_witness :
  exists entries,
    blueprint_blocks zstd_stored two_blocks_string = Ok entries /\
    forall layer_id before raster after,
      entries = before ++ (layer_id, raster) :: after ->
      layer_id ∉ after.*1 ->
      ({[7 := mkarray (1, 2, 4) pixels]} : layers_t) !! layer_id = Some raster /\
      filter (fun entry => entry.1 = layer_id)
        (map_to_list ({[7 := mkarray (1, 2, 4) pixels]} : layers_t))
      = [(layer_id, raster)].
Proof.
  apply (repeated_layer_id_keeps_last zstd_stored two_blocks_string [1; 2; 3]).
  vm_compute. reflexivity.
Defined.

Lemma checksum_is_ignored_witness :
  read_blueprint zstd_stored example_string
  = read_blueprint zstd_stored other_checksum_string.
Proof.
  apply (checksum_is_ignored zstd_stored example_string other_checksum_string
           example_bytes other_checksum_bytes).
  - reflexivity.
  - reflexivity.
  - vm_compute. reflexivity.
  - vm_compute. reflexivity.
  - reflexivity.
  - reflexivity.
  - reflexivity.
Defined.

Lemma header_only_witness :
  read_blueprint zstd_stored header_only_string
  = Ok (ints_of (take 3 (header_bytes checksum_a 2 1)), ∅).
Proof.
  apply (header_only_blueprint zstd_stored header_only_string
           (header_bytes checksum_a 2 1)).
  - vm_compute. lia.
  - reflexivity.
  - vm_compute. reflexivity.
  - reflexivity.
Defined.

Lemma format_error_witness :
  fails_with (read_blueprint zstd_stored one_char_over_string) FormatError /\
  read_blueprint zstd_stored one_char_over_string
  = Raise (binascii_Error (Invalid_length 37)).
Proof.
  destruct (format_error_iff_envelope_rejected zstd_stored one_char_over_string)
    as (Hiff & Hown & _).
  split.
  - apply (proj2 Hiff). right. right.
    exists (binascii_Error (Invalid_length 37)). vm_compute. reflexivity.
  - apply Hown; [vm_compute; lia | reflexivity | vm_compute; reflexivity].
Defined.

(** ** Where the code departs from the specification *)

(** Counterexample to C3 as stated: the characters after "VCB+" are not
    valid base64 in either string, for the blanks, "!" and "*" in them.  The
    decoder skips these characters: the first string decodes to the example
    and the decode succeeds; the second decodes to no byte at all, and the
    failure is that of the header read, a TruncatedInputError. *)
Lemma lenient_base64_counterexample :
  valid_base64 (str_from 4 junk_string) = false /\
  b64decode (str_from 4 junk_string) = Ok example_bytes /\
  listing (read_blueprint zstd_stored junk_string)
  = Ok ([1; 2; 3], [(7, [[[255; 0; 0; 255]; [0; 255; 0; 255]]])]) /\
  valid_base64 (str_from 4 no_base64_string) = false /\
  (40 <= String.length no_base64_string)%nat /\
  b64decode (str_from 4 no_base64_string) = Ok [] /\
  read_blueprint zstd_stored no_base64_string = Raise struct_error /\
  kind_of struct_error = TruncatedInputError.
Proof. vm_compute. repeat split. lia. Qed.

(** Counterexample to C5 as stated: a block is expected at offset 17 and its
    12-byte header triple declares a block size of 0; the decode does not
    fail: the negative length [0 - 12] makes [read] return all the bytes that
    are left, which here are a frame of the right size. *)
Lemma block_size_below_12_counterexample :
  b64decode (str_from 4 block_size_0_string) = Ok block_size_0_bytes /\
  u32_at block_size_0_bytes 17 = 0 /\
  block_fields (mkBytesIO block_size_0_bytes 17)
  = Ok ((0, 7, 8, stored_frame pixels), mkBytesIO block_size_0_bytes 46) /\
  listing (read_blueprint zstd_stored block_size_0_string)
  = Ok ([1; 2; 3], [(7, [[[255; 0; 0; 255]; [0; 255; 0; 255]]])]).
Proof. vm_compute. repeat split. Qed.

(** Counterexample to C6 as stated: the header triple at offset 17 declares
    a block size of 1000 and was read, 17 bytes are left instead of the 988
    it announces, and the decode does not fail: the 17 bytes are taken for
    the payload. *)
Lemma short_payload_counterexample :
  b64decode (str_from 4 block_size_1000_string) = Ok block_size_1000_bytes /\
  u32_at block_size_1000_bytes 17 = 1000 /\
  remaining (mkBytesIO block_size_1000_bytes 29) = 17%nat /\
  block_fields (mkBytesIO block_size_1000_bytes 17)
  = Ok ((1000, 7, 8, stored_frame pixels), mkBytesIO block_size_1000_bytes 46) /\
  listing (read_blueprint zstd_stored block_size_1000_string)
  = Ok ([1; 2; 3], [(7, [[[255; 0; 0; 255]; [0; 255; 0; 255]]])]).
Proof. vm_compute. repeat split. Qed.


(** * Further properties of the readers *)

Local Close Scope N_scope.

(** ** Integers *)

(** X1: [_readint] raises [struct.error] exactly when fewer than 4 bytes are
    left; otherwise it returns a number below 2^32, the big-endian value of
    the next 4 bytes, and moves the cursor by 4 and leaves the bytes alone. *)
Theorem readint_contract (buf : BytesIO) :
  (_readint buf = Raise struct_error <-> remaining buf < 4) /\
  (4 <= remaining buf ->
   exists b0 b1 b2 b3 rest,
     drop (tell buf) (getvalue buf) = b0 :: b1 :: b2 :: b3 :: rest /\
     let n := (((Byte.to_N b0 * 256 + Byte.to_N b1) * 256 + Byte.to_N b2) * 256
               + Byte.to_N b3)%N in
     _readint buf = Ok (n, mkBytesIO (getvalue buf) (tell buf + 4)) /\
     (n < 2 ^ 32)%N).
Proof.
  rewrite readint_eq. split.
  - destruct (Nat.leb_spec 4 (remaining buf)); split; intros H';
      try discriminate; try lia; reflexivity.
  - intros Hge. destruct (Nat.leb_spec 4 (remaining buf)); [| lia].
    assert (Hlen : length (drop (tell buf) (getvalue buf)) = remaining buf)
      by (unfold remaining; apply length_drop).
    destruct (drop (tell buf) (getvalue buf))
      as [| b0 [| b1 [| b2 [| b3 rest]]]] eqn:Hdrop; simpl in Hlen; try lia.
    exists b0, b1, b2, b3, rest. split; [reflexivity |]. cbv zeta.
    pose proof (u32_at_bound (getvalue buf) (tell buf)) as Hbound.
    unfold u32_at in *. rewrite Hdrop in *. simpl in *.
    split; [reflexivity | exact Hbound].
Qed.

(** X2: [_readint] reads back what [struct.pack(">I", n)] wrote, for every
    [n] below 2^32 and wherever the four bytes stand in the buffer. *)
Theorem readint_reads_packed (pre post : bytes) (n : N) :
  (n < 2 ^ 32)%N ->
  _readint (mkBytesIO (pre ++ struct_pack_I n ++ post) (length pre))
  = Ok (n, mkBytesIO (pre ++ struct_pack_I n ++ post) (length pre + 4)).
Proof.
  intros Hn. rewrite readint_eq.
  assert (Hrem : remaining (mkBytesIO (pre ++ struct_pack_I n ++ post) (length pre))
                 = 4 + length post).
  { unfold remaining. cbn [getvalue tell]. rewrite !length_app.
    change (length (struct_pack_I n)) with 4. lia. }
  rewrite Hrem. simpl Nat.leb. cbv iota. cbn [getvalue tell advance].
  rewrite (u32_at_skip pre _ (length pre) 0) by lia.
  rewrite u32_at_head by exact Hn. reflexivity.
Qed.

Section Decoder_more.

Variable zstd_decompress : bytes -> string + bytes.

(** ** Blocks *)

(** X3: a block whose declared size is at least 12 and fits in the bytes
    that are left occupies exactly that many bytes, its own size field
    included: [_read_block] hands the [block_size - 12] bytes after the header
    triple to the decompressor and, when the content has the declared size,
    returns the layer id and the content with the cursor [block_size] bytes
    further. *)
Theorem read_block_occupies_block_size (buf : BytesIO) (content : bytes) :
  let block_size := u32_at (getvalue buf) (tell buf) in
  let layer_id := u32_at (getvalue buf) (tell buf + 4) in
  let uncompressed_size := u32_at (getvalue buf) (tell buf + 8) in
  let compressed :=
    take (N.to_nat block_size - 12) (drop (tell buf + 12) (getvalue buf)) in
  (12 <= block_size)%N ->
  N.to_nat block_size <= remaining buf ->
  zstd_decompress compressed = inr content ->
  N.of_nat (length content) = uncompressed_size ->
  length compressed = N.to_nat block_size - 12 /\
  _read_block zstd_decompress buf
  = Ok ((layer_id, content),
        mkBytesIO (getvalue buf) (tell buf + N.to_nat block_size)).
Proof.
  intros block_size layer_id uncompressed_size compressed Hmin Hfit Hz Hsize.
  split.
  { unfold compressed. rewrite length_take, length_drop.
    unfold remaining in Hfit. lia. }
  rewrite read_block_fields, block_fields_eq.
  destruct (Nat.leb_spec 12 (remaining buf)); [| lia]. cbv zeta.
  fold block_size.
  replace (Z.of_N block_size - 12)%Z with (Z.of_nat (N.to_nat block_size - 12))
    by lia.
  rewrite BytesIO_read_nat, remaining_advance, advance_advance.
  cbn [advance getvalue tell]. fold compressed layer_id uncompressed_size.
  rewrite Hz.
  destruct (N.eqb_spec (N.of_nat (length content)) uncompressed_size);
    [| contradiction].
  do 2 f_equal. unfold advance. f_equal. lia.
Qed.

(** X4: when the decompressor rejects the payload of the block at the
    cursor, the decode raises the [zstd.Error] of the decompressor, a
    DecompressionError, whatever blocks were read before. *)
Theorem decompression_failure_aborts (s : string) (version : list N)
    (width height : N) (layers : layers_t) (buf buf' : BytesIO)
    (block_size layer_id uncompressed_size : N)
    (compressed_payload : bytes) (msg : string) :
  decoding zstd_decompress s version width height layers buf ->
  tell buf < length (getvalue buf) ->
  block_fields buf
  = Ok ((block_size, layer_id, uncompressed_size, compressed_payload), buf') ->
  zstd_decompress compressed_payload = inl msg ->
  read_blueprint zstd_decompress s = Raise (zstd_Error msg) /\
  fails_with (read_blueprint zstd_decompress s) DecompressionError.
Proof.
  intros Hdec Hlt Hfields Hz.
  assert (Hres : read_blueprint zstd_decompress s = Raise (zstd_Error msg)).
  { rewrite (decoding_result _ _ _ _ _ _ _ Hdec).
    rewrite read_blocks_unfold by lia.
    apply Nat.ltb_lt in Hlt.
    rewrite Hlt, read_layer_eq, read_block_fields, Hfields, Hz. reflexivity. }
  split; [exact Hres |]. exists (zstd_Error msg). split; [exact Hres | reflexivity].
Qed.

(** X5: when the header triple of a block was read and declares a block
    size below 12, the negative length [block_size - 12] makes [read] return
    every byte that is left: these bytes are the payload, and the outcome of
    the decode is that of decompressing them, checking the size and
    assembling the layer, as for a last block. *)
Theorem block_size_below_12_reads_the_rest (s : string) (version : list N)
    (width height : N) (layers : layers_t) (buf : BytesIO) :
  decoding zstd_decompress s version width height layers buf ->
  tell buf < length (getvalue buf) ->
  12 <= remaining buf ->
  (u32_at (getvalue buf) (tell buf) < 12)%N ->
  let layer_id := u32_at (getvalue buf) (tell buf + 4) in
  let uncompressed_size := u32_at (getvalue buf) (tell buf + 8) in
  let compressed_payload := drop (tell buf + 12) (getvalue buf) in
  read_blueprint zstd_decompress s
  = match zstd_decompress compressed_payload with
    | inl msg => Raise (zstd_Error msg)
    | inr decompressed =>
        if (N.of_nat (length decompressed) =? uncompressed_size)%N
        then
          match frombuffer_reshape decompressed height width with
          | Ok rgba => Ok (version, <[layer_id := rgba]> layers)
          | Raise e => Raise e
          end
        else Raise (ValueError_decompressed_size uncompressed_size
                      (length compressed_payload))
    end.
Proof.
  intros Hdec Hlt Hrem Hsmall layer_id uncompressed_size compressed_payload.
  rewrite (decoding_result _ _ _ _ _ _ _ Hdec).
  rewrite read_blocks_unfold by lia.
  pose proof Hlt as Hlt'. apply Nat.ltb_lt in Hlt'.
  rewrite Hlt', read_layer_eq, read_block_fields, block_fields_eq.
  destruct (Nat.leb_spec 12 (remaining buf)); [| lia]. cbv zeta.
  rewrite BytesIO_read_negative by lia.
  cbn [advance getvalue tell].
  fold layer_id uncompressed_size compressed_payload.
  destruct (zstd_decompress compressed_payload) as [msg | u]; [reflexivity |].
  destruct (N.of_nat (length u) =? uncompressed_size)%N; [| reflexivity].
  destruct (frombuffer_reshape u height width) as [rgba |]; [| reflexivity].
  rewrite read_blocks_end; [reflexivity |].
  unfold remaining in *. simpl. lia.
Qed.

(** X6: in a decode that succeeds, every block the loop comes to has its
    12-byte header triple in the buffer and declares an uncompressed size of
    exactly [height * width * 4]: the two size checks leave no other. *)
Theorem successful_block_declares_raster_size (s : string) (version : list N)
    (width height : N) (layers : layers_t) (buf : BytesIO)
    (returned : list N * layers_t) :
  decoding zstd_decompress s version width height layers buf ->
  tell buf < length (getvalue buf) ->
  read_blueprint zstd_decompress s = Ok returned ->
  12 <= remaining buf /\
  u32_at (getvalue buf) (tell buf + 8) = (height * width * 4)%N.
Proof.
  intros Hdec Hlt. rewrite (decoding_result _ _ _ _ _ _ _ Hdec).
  rewrite read_blocks_unfold by lia.
  apply Nat.ltb_lt in Hlt.
  rewrite Hlt, read_layer_eq, read_block_fields, block_fields_eq.
  destruct (Nat.leb_spec 12 (remaining buf)); [| discriminate]. cbv zeta.
  destruct (BytesIO_read _ _) as [c buf'].
  destruct (zstd_decompress c) as [msg | u]; [discriminate |].
  destruct (N.eqb_spec (N.of_nat (length u))
              (u32_at (getvalue buf) (tell buf + 8))) as [Hsz |];
    [| discriminate].
  unfold frombuffer_reshape.
  destruct (N.eqb_spec (N.of_nat (length u)) (height * width * 4)) as [Hshape |];
    [| discriminate].
  intros _. split; [assumption | congruence].
Qed.

End Decoder_more.

Section Decoder_results.

Variable zstd_decompress : bytes -> string + bytes.

(** ** What the loop keeps *)

(** A turn of the loop reads one block: it moves the cursor by 12 bytes or
    more, not beyond the end, and assigns one raster of the shape of the
    header, of [height * width * 4] bytes, to a key below 2^32. *)
Lemma read_layer_turn (width height : N) (layers layers' : layers_t)
    (buf buf' : BytesIO) :
  read_layer zstd_decompress width height layers buf = Ok (layers', buf') ->
  exists k layer_id content,
    12 <= k <= remaining buf /\ buf' = advance k buf /\
    (layer_id < 2 ^ 32)%N /\
    N.of_nat (length content) = (height * width * 4)%N /\
    layers' = <[layer_id := mkarray (height, width, 4%N) content]> layers.
Proof.
  intros Hl. destruct (read_layer_moves _ _ _ _ _ _ _ Hl) as (k & Hk & ->).
  exists k. revert Hl.
  rewrite read_layer_eq, read_block_fields, block_fields_eq.
  destruct (12 <=? remaining buf); [| discriminate]. cbv zeta.
  destruct (BytesIO_read _ _) as [c buf1].
  destruct (zstd_decompress c) as [msg | u]; [discriminate |].
  destruct (_ =? _)%N; [| discriminate].
  unfold frombuffer_reshape.
  destruct (N.eqb_spec (N.of_nat (length u)) (height * width * 4)) as [Hu |];
    [| discriminate].
  intros [= <- _].
  exists (u32_at (getvalue buf) (tell buf + 4)), u.
  split; [exact Hk |]. split; [reflexivity |].
  split; [apply u32_at_bound |]. split; [exact Hu | reflexivity].
Qed.

Lemma loop_at_invariant (width height : N) (buf0 : BytesIO)
    (layers : layers_t) (buf : BytesIO) :
  tell buf0 <= length (getvalue buf0) ->
  loop_at zstd_decompress width height buf0 layers buf ->
  getvalue buf = getvalue buf0 /\
  tell buf <= length (getvalue buf0) /\
  tell buf0 + 12 * size layers <= tell buf /\
  forall layer_id rgba,
    layers !! layer_id = Some rgba ->
    (layer_id < 2 ^ 32)%N /\
    shape rgba = (height, width, 4%N) /\
    N.of_nat (length (buffer rgba)) = (height * width * 4)%N.
Proof.
  intros H0 Hat. induction Hat as [| layers buf layers' buf' _ IH Hlt Hl].
  - split; [reflexivity |]. split; [exact H0 |].
    rewrite map_size_empty. split; [lia |].
    intros layer_id rgba Hnone. rewrite lookup_empty in Hnone. discriminate.
  - destruct IH as (Hv & Hend & Hcount & Hall).
    destruct (read_layer_turn _ _ _ _ _ _ Hl)
      as (k & id & content & Hk & -> & Hid & Hcontent & ->).
    unfold remaining, advance in *. rewrite Hv in *. cbn [getvalue tell].
    split; [reflexivity |]. split; [lia |]. split.
    + destruct (layers !! id) as [old |] eqn:Hold.
      * rewrite map_size_insert_Some by (rewrite Hold; eexists; reflexivity). lia.
      * rewrite map_size_insert_None by exact Hold. lia.
    + intros layer_id rgba. rewrite lookup_insert.
      destruct (decide (id = layer_id)) as [<- |]; [| apply Hall].
      intros [= <-]. split; [exact Hid |]. split; [reflexivity | exact Hcontent].
Qed.

(** The loop returns from a state at the end of the bytes. *)
Lemma read_blocks_reaches (width height : N) (buf0 : BytesIO) (fuel : nat)
    (layers layers' : layers_t) (buf buf' : BytesIO) :
  remaining buf <= fuel ->
  loop_at zstd_decompress width height buf0 layers buf ->
  read_blocks zstd_decompress fuel width height layers buf = Ok (layers', buf') ->
  loop_at zstd_decompress width height buf0 layers' buf' /\
  length (getvalue buf') <= tell buf'.
Proof.
  revert layers buf. induction fuel as [| fuel IH]; intros layers buf Hfuel Hat.
  - simpl. intros [= <- <-]. split; [exact Hat | unfold remaining in Hfuel; lia].
  - simpl. destruct (Nat.ltb_spec (tell buf) (length (getvalue buf))) as [Hlt | Hge].
    + unfold bind.
      destruct (read_layer zstd_decompress width height layers buf)
        as [[layers1 buf1] |] eqn:Hl; [| discriminate].
      apply IH.
      * destruct (read_layer_moves _ _ _ _ _ _ _ Hl) as (k & Hk & ->).
        rewrite remaining_advance. lia.
      * eapply loop_turn; eassumption.
    + intros [= <- <-]. split; [exact Hat | exact Hge].
Qed.

(** What a successful decode went through. *)
Lemma read_blueprint_Ok_inv (s : string) (version : list N) (layers : layers_t) :
  read_blueprint zstd_decompress s = Ok (version, layers) ->
  40 <= String.length s /\ str_upto 4 s = "VCB+"%string /\
  exists decoded checksum width height buf,
    b64decode (str_from 4 s) = Ok decoded /\
    17 <= length decoded /\
    _read_header (BytesIO_new decoded)
    = Ok ((version, checksum, width, height), mkBytesIO decoded 17) /\
    version = ints_of (take 3 decoded) /\
    width = u32_at decoded 9 /\ height = u32_at decoded 13 /\
    loop_at zstd_decompress width height (mkBytesIO decoded 17) layers buf /\
    length (getvalue buf) <= tell buf.
Proof.
  unfold read_blueprint.
  destruct (Nat.ltb_spec (String.length s) 40) as [| Hlen]; [discriminate |].
  destruct (String.eqb_spec (str_upto 4 s) "VCB+") as [Hid |]; [| discriminate].
  simpl negb. cbv iota.
  destruct (b64decode (str_from 4 s)) as [decoded |] eqn:Hd; [| discriminate].
  unfold read_container, bind, ret.
  pose proof (read_header_eq (BytesIO_new decoded)) as Hh.
  assert (Hrem : remaining (BytesIO_new decoded) = length decoded)
    by (unfold remaining; simpl; lia).
  rewrite Hrem in Hh.
  destruct (Nat.leb_spec 17 (length decoded)) as [H17 |];
    [| rewrite Hh; discriminate].
  rewrite Hh.
  destruct (read_blocks _ _ _ _ _ _) as [[layers' buf] |] eqn:Hb; [| discriminate].
  intros [= <- <-].
  split; [exact Hlen |]. split; [exact Hid |].
  eexists decoded, _, _, _, buf.
  split; [reflexivity |]. split; [exact H17 |].
  split; [exact Hh |]. simpl. rewrite drop_0.
  split; [reflexivity |]. split; [reflexivity |]. split; [reflexivity |].
  eapply read_blocks_reaches; [| apply loop_entry | exact Hb].
  unfold remaining, advance. simpl. lia.
Qed.

(** X7: a decode succeeds exactly when its loop arrives, without a failure,
    at the end of the decoded bytes, neither before it nor beyond; what it
    returns is the version of the header and the layers assigned by then. *)
Theorem decode_succeeds_at_the_end (s : string) (version : list N)
    (layers : layers_t) :
  read_blueprint zstd_decompress s = Ok (version, layers) <->
  exists width height buf,
    decoding zstd_decompress s version width height layers buf /\
    tell buf = length (getvalue buf).
Proof.
  split.
  - intros Hres. apply read_blueprint_Ok_inv in Hres
      as (Hlen & Hid & decoded & checksum & width & height & buf
          & Hd & H17 & Hh & _ & _ & _ & Hat & Hend).
    exists width, height, buf.
    destruct (loop_at_invariant _ _ (mkBytesIO decoded 17) _ _ H17 Hat) as (Hv & Hle & _).
    split; [| rewrite Hv in *; simpl in *; lia].
    split; [exact Hlen |]. split; [exact Hid |].
    exists decoded, checksum, (mkBytesIO decoded 17).
    split; [exact Hd |]. split; [exact Hh | exact Hat].
  - intros (width & height & buf & Hdec & Hend).
    rewrite (decoding_result _ _ _ _ _ _ _ Hdec).
    rewrite read_blocks_end by lia. reflexivity.
Qed.

(** X8: every raster of a successful decode has the shape
    [(height, width, 4)] of the header of the blueprint and [height * width *
    4] bytes, whatever its block declared, and every key is below 2^32. *)
Theorem layers_have_the_shape_of_the_header (s : string) (version : list N)
    (layers : layers_t) :
  read_blueprint zstd_decompress s = Ok (version, layers) ->
  exists decoded,
    b64decode (str_from 4 s) = Ok decoded /\
    forall layer_id rgba,
      layers !! layer_id = Some rgba ->
      (layer_id < 2 ^ 32)%N /\
      shape rgba = (u32_at decoded 13, u32_at decoded 9, 4%N) /\
      N.of_nat (length (buffer rgba))
      = (u32_at decoded 13 * u32_at decoded 9 * 4)%N /\
      length (tolist rgba) = N.to_nat (u32_at decoded 13).
Proof.
  intros Hres. apply read_blueprint_Ok_inv in Hres
    as (_ & _ & decoded & checksum & width & height & buf
        & Hd & H17 & _ & _ & -> & -> & Hat & _).
  exists decoded. split; [exact Hd |].
  intros layer_id rgba Hl.
  destruct (loop_at_invariant _ _ (mkBytesIO decoded 17) _ _ H17 Hat) as (_ & _ & _ & Hall).
  destruct (Hall _ _ Hl) as (Hid & Hshape & Hlen).
  split; [exact Hid |]. split; [exact Hshape |]. split; [exact Hlen |].
  destruct rgba as [sh data]. simpl in Hshape, Hlen. subst sh.
  apply (tolist_row_major data _ _ Hlen).
Qed.

(** X9: a block takes 12 bytes at least, so a successful decode returns at
    most one layer for every 12 bytes that follow the 17 bytes of the
    header. *)
Theorem layers_are_bounded_by_the_bytes (s : string) (version : list N)
    (layers : layers_t) :
  read_blueprint zstd_decompress s = Ok (version, layers) ->
  exists decoded,
    b64decode (str_from 4 s) = Ok decoded /\
    17 + 12 * size layers <= length decoded.
Proof.
  intros Hres. apply read_blueprint_Ok_inv in Hres
    as (_ & _ & decoded & checksum & width & height & buf
        & Hd & H17 & _ & _ & _ & _ & Hat & _).
  exists decoded. split; [exact Hd |].
  destruct (loop_at_invariant _ _ (mkBytesIO decoded 17) _ _ H17 Hat) as (_ & Hle & Hcount & _).
  simpl in *. lia.
Qed.

(** X10: a decode that succeeds was given a string of 40 characters or more
    that starts with "VCB+" and decodes to 17 bytes or more, and the version
    it returns is the first three of these bytes. *)
Theorem success_needs_envelope_and_header (s : string) (version : list N)
    (layers : layers_t) :
  read_blueprint zstd_decompress s = Ok (version, layers) ->
  40 <= String.length s /\
  str_upto 4 s = "VCB+"%string /\
  exists decoded,
    b64decode (str_from 4 s) = Ok decoded /\
    17 <= length decoded /\
    version = ints_of (take 3 decoded) /\
    length version = 3 /\
    Forall (fun v => (v <= 255)%N) version.
Proof.
  intros Hres. apply read_blueprint_Ok_inv in Hres
    as (Hlen & Hid & decoded & checksum & width & height & buf
        & Hd & H17 & _ & -> & _).
  split; [exact Hlen |]. split; [exact Hid |].
  exists decoded. split; [exact Hd |]. split; [exact H17 |].
  split; [reflexivity |]. unfold ints_of. split.
  - rewrite length_fmap, length_take. lia.
  - apply Forall_fmap, Forall_forall. intros b _. apply Byte.to_N_bounded.
Qed.

End Decoder_results.


Section Decoder_containers.

Variable zstd_decompress : bytes -> string + bytes.

(** ** Containers of well-formed blocks *)

(** The loop reads a sequence of well-formed blocks to its end and assigns
    their layers in order. *)
Lemma read_blocks_encoded (width height : N) (blocks : list (N * bytes * bytes)) :
  Forall (well_formed_block zstd_decompress width height) blocks ->
  forall (pre : bytes) (layers : layers_t) (fuel : nat),
    length (concat (encode_block <$> blocks)) <= fuel ->
    read_blocks zstd_decompress fuel width height layers
      (mkBytesIO (pre ++ concat (encode_block <$> blocks)) (length pre))
    = Ok (assign_all layers (layer_of_block width height <$> blocks),
          mkBytesIO (pre ++ concat (encode_block <$> blocks))
            (length (pre ++ concat (encode_block <$> blocks)))).
Proof.
  induction 1 as [| [[id c] u] blocks (Hid & Hbs & Hsz & Hz & Hu) _ IH];
    intros pre layers fuel Hfuel.
  - simpl. rewrite read_blocks_end by (simpl; rewrite app_nil_r; lia).
    rewrite app_nil_r. reflexivity.
  - cbn [fmap list_fmap concat] in *.
    set (rest := concat (encode_block <$> blocks)) in *.
    set (data := pre ++ encode_block (id, c, u) ++ rest).
    assert (Hblock : length (encode_block (id, c, u)) = 12 + length c).
    { unfold encode_block, block_bytes. rewrite !length_app.
      change (length (struct_pack_I _)) with 4. lia. }
    assert (Hdata : length data = length pre + 12 + length c + length rest).
    { unfold data. rewrite !length_app, Hblock. lia. }
    assert (Htail : drop (length pre) data
                    = struct_pack_I (12 + N.of_nat (length c)) ++ struct_pack_I id
                      ++ struct_pack_I (N.of_nat (length u)) ++ c ++ rest).
    { unfold data. rewrite drop_app_length. unfold encode_block, block_bytes.
      rewrite <- !app_assoc. reflexivity. }
    assert (Hat : forall k, u32_at data (length pre + k)
                            = u32_at (drop (length pre) data) k).
    { intros k. unfold u32_at. rewrite drop_drop. reflexivity. }
    assert (H0 : u32_at data (length pre) = (12 + N.of_nat (length c))%N).
    { rewrite <- (Nat.add_0_r (length pre)), Hat, Htail.
      apply u32_at_head. exact Hbs. }
    assert (H4 : u32_at data (length pre + 4) = id).
    { rewrite Hat, Htail.
      rewrite (u32_at_skip (struct_pack_I _) _ 4 0) by reflexivity.
      apply u32_at_head. exact Hid. }
    assert (H8 : u32_at data (length pre + 8) = N.of_nat (length u)).
    { rewrite Hat, Htail.
      rewrite (u32_at_skip (struct_pack_I _) _ 8 4) by reflexivity.
      rewrite (u32_at_skip (struct_pack_I _) _ 4 0) by reflexivity.
      apply u32_at_head. exact Hsz. }
    assert (Hpayload : take (length c) (drop (length pre + 12) data) = c).
    { rewrite <- drop_drop, Htail.
      change 12 with (length (struct_pack_I (12 + N.of_nat (length c))
                              ++ struct_pack_I id
                              ++ struct_pack_I (N.of_nat (length u)))).
      rewrite !app_assoc, <- (app_assoc _ c rest), drop_app_length.
      apply take_app_length. }
    assert (Hrem : remaining (mkBytesIO data (length pre))
                   = 12 + length c + length rest)
      by (unfold remaining; simpl; lia).
    rewrite read_blocks_unfold by (rewrite Hrem; rewrite length_app, Hblock in Hfuel; lia).
    cbn [getvalue tell].
    destruct (Nat.ltb_spec (length pre) (length data)); [| lia].
    rewrite read_layer_eq, read_block_fields, block_fields_eq, Hrem.
    simpl Nat.leb. cbv iota zeta. cbn [getvalue tell]. rewrite H0, H4, H8.
    replace (Z.of_N (12 + N.of_nat (length c)) - 12)%Z
      with (Z.of_nat (length c)) by lia.
    rewrite BytesIO_read_nat, remaining_advance, Hrem, advance_advance.
    cbn [advance getvalue tell]. rewrite Hpayload, Hz, N.eqb_refl.
    unfold frombuffer_reshape.
    destruct (N.eqb_spec (N.of_nat (length u)) (height * width * 4));
      [| contradiction].
    unfold advance at 2. cbn [getvalue tell].
    replace (length pre + (12 + length c `min` (12 + length c + length rest - 12)))
      with (length (pre ++ encode_block (id, c, u)))
      by (rewrite length_app, Hblock; lia).
    unfold data. rewrite (app_assoc pre).
    rewrite IH.
    + reflexivity.
    + rewrite remaining_advance. unfold remaining. cbn [getvalue tell].
      rewrite !length_app. lia.
Qed.

(** X11: a blueprint whose decoded bytes are a header followed by
    well-formed blocks, each with its whole size, its layer id, the size of
    its content and a payload that decompresses to a raster of the header's
    size, decodes to the version of the header and the layers of the blocks,
    assigned in their order. *)
Theorem well_formed_container_decodes (s : string) (version checksum : bytes)
    (width height : N) (blocks : list (N * bytes * bytes)) :
  40 <= String.length s ->
  str_upto 4 s = "VCB+"%string ->
  length version = 3 ->
  length checksum = 6 ->
  (width < 2 ^ 32)%N ->
  (height < 2 ^ 32)%N ->
  Forall (well_formed_block zstd_decompress width height) blocks ->
  b64decode (str_from 4 s)
  = Ok (container_bytes version checksum width height blocks) ->
  read_blueprint zstd_decompress s
  = Ok (ints_of version,
        assign_all ∅ (layer_of_block width height <$> blocks)).
Proof.
  intros Hlen Hid Hv Hc Hw Hh Hblocks Hd.
  unfold read_blueprint.
  destruct (Nat.ltb_spec (String.length s) 40); [lia |].
  rewrite Hid. simpl negb. cbv iota. rewrite Hd.
  unfold read_container, bind, ret. rewrite read_header_eq.
  set (rest := concat (encode_block <$> blocks)).
  set (pre := version ++ checksum ++ struct_pack_I width ++ struct_pack_I height).
  assert (Hdata : container_bytes version checksum width height blocks = pre ++ rest).
  { unfold container_bytes, pre. rewrite <- !app_assoc. reflexivity. }
  assert (Hpre : length pre = 17).
  { unfold pre. rewrite !length_app, Hv, Hc. reflexivity. }
  rewrite Hdata.
  assert (Hrem : remaining (BytesIO_new (pre ++ rest)) = 17 + length rest)
    by (unfold remaining; simpl; rewrite length_app; lia).
  rewrite Hrem. simpl Nat.leb. cbv iota. cbn [BytesIO_new advance getvalue tell].
  assert (Hwidth : u32_at (pre ++ rest) 9 = width).
  { unfold pre. rewrite <- !app_assoc.
    rewrite (u32_at_skip version _ 9 6) by lia.
    rewrite (u32_at_skip checksum _ 6 0) by lia. apply u32_at_head. exact Hw. }
  assert (Hheight : u32_at (pre ++ rest) 13 = height).
  { unfold pre. rewrite <- !app_assoc.
    rewrite (u32_at_skip version _ 13 10) by lia.
    rewrite (u32_at_skip checksum _ 10 4) by lia.
    rewrite (u32_at_skip (struct_pack_I width) _ 4 0) by reflexivity.
    apply u32_at_head. exact Hh. }
  assert (Hversion : take 3 (pre ++ rest) = version).
  { unfold pre. rewrite <- !app_assoc. apply take_app_length'. symmetry. exact Hv. }
  simpl "+". rewrite drop_0, Hwidth, Hheight, Hversion.
  change (advance 17 (BytesIO_new (pre ++ rest)))
    with (mkBytesIO (pre ++ rest) 17).
  rewrite <- Hpre. unfold rest.
  rewrite read_blocks_encoded; [reflexivity | exact Hblocks |].
  rewrite length_app. lia.
Qed.

End Decoder_containers.

(** ** Strings and the decoder of base64 *)

Lemma string_length_append (s t : string) :
  String.length (s ++ t)%string = String.length s + String.length t.
Proof.
  induction s as [| a s IH]; [reflexivity |].
  change (String a s ++ t)%string with (String a (s ++ t)%string).
  simpl. rewrite IH. reflexivity.
Qed.

Lemma str_upto_append (n : nat) (s t : string) :
  n <= String.length s -> str_upto n (s ++ t)%string = str_upto n s.
Proof.
  unfold str_upto. revert n.
  induction s as [| a s IH]; intros [| n] Hn; simpl in Hn; try lia.
  - change ("" ++ t)%string with t. destruct t; reflexivity.
  - reflexivity.
  - change (String a s ++ t)%string with (String a (s ++ t)%string).
    simpl. rewrite IH by lia. reflexivity.
Qed.

Lemma str_from_append (n : nat) (s t : string) :
  n <= String.length s -> str_from n (s ++ t)%string = (str_from n s ++ t)%string.
Proof.
  revert n. induction s as [| a s IH]; intros [| n] Hn; simpl in Hn; try lia;
    try reflexivity.
  change (String a s ++ t)%string with (String a (s ++ t)%string).
  simpl. apply IH. lia.
Qed.

Lemma bytes_from_decode_data_append (s t : string) :
  _bytes_from_decode_data (s ++ t)%string
  = match _bytes_from_decode_data s with
    | Ok b1 =>
        match _bytes_from_decode_data t with
        | Ok b2 => Ok (b1 ++ b2)
        | Raise e => Raise e
        end
    | Raise e => Raise e
    end.
Proof.
  induction s as [| a s IH].
  - change ("" ++ t)%string with t. simpl.
    destruct (_bytes_from_decode_data t); reflexivity.
  - change (String a s ++ t)%string with (String a (s ++ t)%string). simpl.
    destruct (N_of_ascii a <? 128)%N; [| reflexivity]. rewrite IH.
    destruct (_bytes_from_decode_data s); [| reflexivity].
    destruct (_bytes_from_decode_data t); reflexivity.
Qed.

(** The only exception of the encoding to ASCII is the one for a character
    outside ASCII, and it is raised exactly when there is one. *)
Lemma bytes_from_decode_data_raises (s : string) (e : exn) :
  _bytes_from_decode_data s = Raise e <->
  e = ValueError_not_ascii /\
  Exists (fun c => (128 <= N_of_ascii c)%N) (list_ascii_of_string s).
Proof.
  revert e. induction s as [| a s IH]; intros e; simpl.
  - split; [discriminate | intros [_ H]; inversion H].
  - destruct (N.ltb_spec (N_of_ascii a) 128) as [Hlt | Hge].
    + destruct (_bytes_from_decode_data s) as [b | e'].
      * split; [discriminate |]. intros [He H].
        inversion H as [? ? Ha | ? ? Hs]; subst; [lia |].
        pose proof (proj2 (IH ValueError_not_ascii) (conj eq_refl Hs)) as Habs.
        discriminate Habs.
      * split.
        -- intros [= <-]. destruct (proj1 (IH e') eq_refl) as [-> Hs].
           split; [reflexivity | right; exact Hs].
        -- intros [-> H].
           inversion H as [? ? Ha | ? ? Hs]; subst; [lia |].
           apply (proj2 (IH ValueError_not_ascii) (conj eq_refl Hs)).
    + split; [intros [= <-]; split; [reflexivity | left; exact Hge] |].
      intros [-> _]. reflexivity.
Qed.

Lemma b64decode_raises_own (s : string) (e : exn) :
  b64decode s = Raise e ->
  (e = ValueError_not_ascii /\
   Exists (fun c => (128 <= N_of_ascii c)%N) (list_ascii_of_string s))
  \/ (exists f, e = binascii_Error f).
Proof.
  unfold b64decode.
  destruct (_bytes_from_decode_data s) as [data | e'] eqn:Hdata.
  - intros H. right. eapply a2b_base64_loop_raises, H.
  - intros [= <-]. left. apply bytes_from_decode_data_raises. exact Hdata.
Qed.

(** A skipped character is skipped wherever it stands. *)
Lemma a2b_base64_loop_skip_inside (l1 l2 : bytes) (c : byte) :
  Byte.to_N c <> BASE64_PAD ->
  table_a2b_base64 (Byte.to_N c) = None ->
  forall quad_pos leftchar pads bin_data,
    a2b_base64_loop (l1 ++ c :: l2) quad_pos leftchar pads bin_data
    = a2b_base64_loop (l1 ++ l2) quad_pos leftchar pads bin_data.
Proof.
  intros Hpad Htable. induction l1 as [| x l1 IH];
    intros quad_pos leftchar pads bin_data.
  - apply a2b_base64_loop_skip; assumption.
  - cbn [app a2b_base64_loop].
    destruct (Byte.to_N x =? BASE64_PAD)%N.
    + destruct (2 <=? quad_pos); [| apply IH].
      destruct (4 <=? quad_pos + S pads); [reflexivity | apply IH].
    + destruct (table_a2b_base64 (Byte.to_N x)); [| apply IH].
      destruct quad_pos as [| [| [| quad_pos]]]; apply IH.
Qed.

Lemma b64decode_skips (s t : string) (c : ascii) :
  (N_of_ascii c < 128)%N ->
  is_base64_digit c = false ->
  c <> "="%char ->
  b64decode (s ++ String c t)%string = b64decode (s ++ t)%string.
Proof.
  intros Hascii Hdigit Hpad. unfold b64decode.
  rewrite !bytes_from_decode_data_append.
  destruct (_bytes_from_decode_data s) as [b1 |]; [| reflexivity].
  simpl. apply N.ltb_lt in Hascii. rewrite Hascii.
  destruct (_bytes_from_decode_data t) as [b2 |]; [| reflexivity].
  unfold a2b_base64. apply a2b_base64_loop_skip_inside.
  - rewrite to_N_byte_of_ascii. intros H61. apply Hpad.
    rewrite <- (ascii_N_embedding c), H61. reflexivity.
  - rewrite to_N_byte_of_ascii. unfold is_base64_digit in Hdigit.
    destruct (table_a2b_base64 (N_of_ascii c)); [discriminate | reflexivity].
Qed.

Section Decoder_envelope.

Variable zstd_decompress : bytes -> string + bytes.

(** ** The checks of the envelope *)

(** X12: the "too short" error is raised for the strings of fewer than 40
    characters and for no other, whatever their first characters; the
    "invalid identifier" error is raised for the strings of 40 characters or
    more whose first 4 characters are not "VCB+" and for no other, whatever
    follows, and it carries these 4 characters. *)
Theorem envelope_errors (s : string) :
  (read_blueprint zstd_decompress s = Raise ValueError_too_short
   <-> String.length s < 40) /\
  (forall got,
     read_blueprint zstd_decompress s = Raise (ValueError_identifier got)
     <-> 40 <= String.length s /\ got = str_upto 4 s /\ got <> "VCB+"%string).
Proof.
  unfold read_blueprint.
  destruct (Nat.ltb_spec (String.length s) 40) as [Hshort | Hlong].
  { split; [split; [intros _; exact Hshort | reflexivity] |].
    intros got. split; [discriminate | lia]. }
  destruct (String.eqb_spec (str_upto 4 s) "VCB+") as [Hid | Hid]; simpl negb;
    cbv iota.
  2: { split; [split; [discriminate | lia] |].
       intros got. split.
       - intros [= <-]. split; [exact Hlong |]. split; [reflexivity | exact Hid].
       - intros (_ & -> & _). reflexivity. }
  assert (Hlater : forall e,
    match b64decode (str_from 4 s) with
    | Raise e => Raise e
    | Ok decoded_string => read_container zstd_decompress decoded_string
    end = Raise e ->
    e <> ValueError_too_short /\ forall got, e <> ValueError_identifier got).
  { intros e. destruct (b64decode (str_from 4 s)) as [decoded | e'] eqn:Hd.
    - intros He. apply read_container_raises in He.
      split; [| intros got]; intros ->; apply He; reflexivity.
    - intros [= <-]. apply b64decode_raises_own in Hd as [[-> _] | [f ->]];
        split; try intros got; discriminate. }
  split.
  - split; [| lia]. intros He. apply Hlater in He as [He _]. contradiction.
  - intros got. split.
    + intros He. apply Hlater in He as [_ He]. destruct (He got). reflexivity.
    + intros (_ & -> & Hne). contradiction.
Qed.

(** X13: a string of 40 characters or more that starts with "VCB+" is
    refused with the [ValueError] for non-ASCII text exactly when a character
    from index 4 on is outside ASCII, wherever it stands and whatever the
    other characters are. *)
Theorem non_ascii_is_rejected (s : string) :
  read_blueprint zstd_decompress s = Raise ValueError_not_ascii <->
  40 <= String.length s /\
  str_upto 4 s = "VCB+"%string /\
  Exists (fun c => (128 <= N_of_ascii c)%N) (list_ascii_of_string (str_from 4 s)).
Proof.
  unfold read_blueprint.
  destruct (Nat.ltb_spec (String.length s) 40) as [Hshort | Hlong].
  { split; [discriminate | lia]. }
  destruct (String.eqb_spec (str_upto 4 s) "VCB+") as [Hid | Hid]; simpl negb;
    cbv iota.
  2: { split; [discriminate | intros (_ & H & _); contradiction]. }
  destruct (b64decode (str_from 4 s)) as [decoded | e] eqn:Hd.
  - split.
    + intros He. apply read_container_raises in He. destruct He. reflexivity.
    + intros (_ & _ & Hex). exfalso. unfold b64decode in Hd.
      destruct (_bytes_from_decode_data (str_from 4 s)) as [data | e] eqn:Hdata;
        [| discriminate].
      pose proof (proj2 (bytes_from_decode_data_raises (str_from 4 s)
                           ValueError_not_ascii) (conj eq_refl Hex)) as Hraise.
      rewrite Hdata in Hraise. discriminate.
  - split.
    + intros [= ->]. apply b64decode_raises_own in Hd as [[_ Hex] | [f Hf]];
        [| discriminate].
      split; [exact Hlong |]. split; [exact Hid | exact Hex].
    + intros (_ & _ & Hex). f_equal. unfold b64decode in Hd.
      pose proof (proj2 (bytes_from_decode_data_raises (str_from 4 s)
                           ValueError_not_ascii) (conj eq_refl Hex)) as Hraise.
      rewrite Hraise in Hd. injection Hd as <-. reflexivity.
Qed.

(** X14: an ASCII character that is neither a base64 digit nor the pad,
    such as a blank or a line break, changes nothing to the decode of a
    blueprint string of 40 characters or more when it is put anywhere after
    the identifier. *)
Theorem skipped_characters_change_nothing (pre post : string) (c : ascii) :
  4 <= String.length pre ->
  40 <= String.length (pre ++ post)%string ->
  (N_of_ascii c < 128)%N ->
  is_base64_digit c = false ->
  c <> "="%char ->
  read_blueprint zstd_decompress (pre ++ String c post)%string
  = read_blueprint zstd_decompress (pre ++ post)%string.
Proof.
  intros Hpre Hlen Hascii Hdigit Hpad. unfold read_blueprint.
  rewrite string_length_append in Hlen. rewrite !string_length_append.
  simpl String.length.
  destruct (Nat.ltb_spec (String.length pre + S (String.length post)) 40); [lia |].
  destruct (Nat.ltb_spec (String.length pre + String.length post) 40); [lia |].
  rewrite !str_upto_append, !str_from_append by exact Hpre.
  rewrite b64decode_skips by assumption. reflexivity.
Qed.

End Decoder_envelope.


(** ** The further properties on the examples *)

Local Open Scope N_scope.

Lemma readint_reads_packed_witness :
  _readint (mkBytesIO (bytes_of [1; 2; 3] ++ struct_pack_I 1000 ++ []) 3)
  = Ok (1000, mkBytesIO (bytes_of [1; 2; 3] ++ struct_pack_I 1000 ++ []) 7).
Proof.
  apply (readint_reads_packed (bytes_of [1; 2; 3]) [] 1000). reflexivity.
Defined.

Lemma read_block_occupies_witness :
  length (take 17 (drop 29 example_bytes)) = 17%nat /\
  _read_block zstd_stored (mkBytesIO example_bytes 17)
  = Ok ((7, pixels), mkBytesIO example_bytes 46).
Proof.
  apply (read_block_occupies_block_size zstd_stored
           (mkBytesIO example_bytes 17) pixels).
  - vm_compute. discriminate.
  - vm_compute. lia.
  - vm_compute. reflexivity.
  - vm_compute. reflexivity.
Defined.

Lemma decompression_failure_witness :
  read_blueprint zstd_stored cut_frame_string
  = Raise (zstd_Error "Error: input is not a stored frame") /\
  fails_with (read_blueprint zstd_stored cut_frame_string) DecompressionError.
Proof.
  apply (decompression_failure_aborts zstd_stored cut_frame_string [1; 2; 3] 2 1 ∅
           (mkBytesIO cut_frame_bytes 17) (mkBytesIO cut_frame_bytes 45)
           28 7 8 (take 16 (stored_frame pixels))).
  - at_first_block cut_frame_bytes.
  - vm_compute. lia.
  - vm_compute. reflexivity.
  - vm_compute. reflexivity.
Defined.

Lemma block_size_below_12_witness :
  listing (read_blueprint zstd_stored block_size_0_string)
  = Ok ([1; 2; 3], [(7, [[[255; 0; 0; 255]; [0; 255; 0; 255]]])]).
Proof.
  rewrite (block_size_below_12_reads_the_rest zstd_stored block_size_0_string
             [1; 2; 3] 2 1 ∅ (mkBytesIO block_size_0_bytes 17)).
  - vm_compute. reflexivity.
  - at_first_block block_size_0_bytes.
  - vm_compute. lia.
  - vm_compute. lia.
  - vm_compute. reflexivity.
Defined.

Lemma successful_block_witness :
  (12 <= remaining (mkBytesIO example_bytes 17))%nat /\
  u32_at example_bytes (17 + 8) = 1 * 2 * 4.
Proof.
  apply (successful_block_declares_raster_size zstd_stored example_string
           [1; 2; 3] 2 1 ∅ (mkBytesIO example_bytes 17)
           ([1; 2; 3], {[7 := mkarray (1, 2, 4) pixels]})).
  - at_first_block example_bytes.
  - vm_compute. lia.
  - vm_compute. reflexivity.
Defined.

Lemma layers_shape_witness :
  exists decoded,
    b64decode (str_from 4 two_blocks_string) = Ok decoded /\
    forall layer_id rgba,
      ({[7 := mkarray (1, 2, 4) pixels]} : layers_t) !! layer_id = Some rgba ->
      layer_id < 2 ^ 32 /\
      shape rgba = (u32_at decoded 13, u32_at decoded 9, 4) /\
      N.of_nat (length (buffer rgba)) = u32_at decoded 13 * u32_at decoded 9 * 4 /\
      length (tolist rgba) = N.to_nat (u32_at decoded 13).
Proof.
  apply (layers_have_the_shape_of_the_header zstd_stored two_blocks_string
           [1; 2; 3]).
  vm_compute. reflexivity.
Defined.

Lemma layers_bounded_witness :
  exists decoded,
    b64decode (str_from 4 two_blocks_string) = Ok decoded /\
    (17 + 12 * size ({[7%N := mkarray (1, 2, 4)%N pixels]} : layers_t)
     <= length decoded)%nat.
Proof.
  apply (layers_are_bounded_by_the_bytes zstd_stored two_blocks_string [1; 2; 3]).
  vm_compute. reflexivity.
Defined.

Lemma success_needs_envelope_witness :
  (40 <= String.length example_string)%nat /\
  str_upto 4 example_string = "VCB+"%string /\
  exists decoded,
    b64decode (str_from 4 example_string) = Ok decoded /\
    (17 <= length decoded)%nat /\
    [1; 2; 3] = ints_of (take 3 decoded) /\
    length [1; 2; 3] = 3%nat /\
    Forall (fun v => v <= 255) [1; 2; 3].
Proof.
  apply (success_needs_envelope_and_header zstd_stored example_string [1; 2; 3]
           {[7 := mkarray (1, 2, 4) pixels]}).
  vm_compute. reflexivity.
Defined.

Lemma well_formed_container_witness :
  read_blueprint zstd_stored two_blocks_string
  = Ok (ints_of (bytes_of [1; 2; 3]),
        assign_all ∅
          (layer_of_block 2 1
           <$> [(7, stored_frame other_pixels, other_pixels);
                (7, stored_frame pixels, pixels)])).
Proof.
  apply (well_formed_container_decodes zstd_stored two_blocks_string
           (bytes_of [1; 2; 3]) (bytes_of checksum_a) 2 1
           [(7, stored_frame other_pixels, other_pixels);
            (7, stored_frame pixels, pixels)]).
  - vm_compute. lia.
  - reflexivity.
  - reflexivity.
  - reflexivity.
  - reflexivity.
  - reflexivity.
  - repeat constructor; vm_compute; reflexivity.
  - vm_compute. reflexivity.
Defined.

Lemma non_ascii_witness :
  read_blueprint zstd_stored non_ascii_string = Raise ValueError_not_ascii.
Proof.
  apply (proj2 (non_ascii_is_rejected zstd_stored non_ascii_string)).
  split; [vm_compute; lia |]. split; [reflexivity |].
  vm_compute. do 36 right. left. vm_compute. discriminate.
Defined.

Lemma skipped_characters_witness :
  read_blueprint zstd_stored (example_front ++ String " " example_back)%string
  = read_blueprint zstd_stored (example_front ++ example_back)%string.
Proof.
  apply (skipped_characters_change_nothing zstd_stored example_front example_back
           " "%char).
  - vm_compute. lia.
  - vm_compute. lia.
  - reflexivity.
  - reflexivity.
  - discriminate.
Defined.
